(** * The data-ingestion pipeline of the customer-support system

    A shallow embedding of [data_ingestion/ingestion_pipeline.py] (class
    [DataIngestion]), of [config/config_loader.py] and of the script
    [test.py], followed by the properties of the ingestion pipeline.

    Python objects are modelled by their values: a pandas row is a finite map
    from column labels to cells, a [Document] is a record of its two fields, a
    [dict] is a [gmap], a [set] of strings is a [gset].  The methods of
    [DataIngestion] run in a state-and-exception monad whose state holds the
    object [self], the process environment [os.environ] and the sequence of
    observable events (console output and calls to the collaborators).  The
    collaborators that are not part of the repository (pandas, dotenv, yaml,
    the file system, the model loader, the vector store client) are given by
    a record [World] of their answers. *)

From Stdlib Require Import Ascii String ZArith.
From stdpp Require Import gmap strings list fin_maps.

Set Warnings "-register-all".
Open Scope string_scope.

(** ** Python values *)

(** A cell of the data frame: a string, a number, or pandas' missing value. *)
Inductive cell :=
| CStr (s : string)
| CInt (n : Z)
| CNaN.

#[global] Instance cell_eq_dec : EqDecision cell.
Proof. solve_decision. Defined.

(** A row as [iterrows] yields it: a labelled series. *)
Abbreviation Row := (gmap string cell).

(** [pandas.DataFrame]: the column labels and the rows in index order. *)
Record DataFrame := {
  df_columns : list string;
  df_rows : list Row
}.

(** [langchain_core.documents.Document], by its two fields. *)
Record Document := {
  page_content : cell;
  metadata : gmap string cell
}.

(** The value [yaml.safe_load] returns. *)
Inductive yaml :=
| YNull
| YStr (s : string)
| YInt (n : Z)
| YSeq (l : list yaml)
| YMap (items : list (string * yaml)).

(** An f-string: literal pieces and interpolated values.  The interpolated
    value is kept as a value (the text Python makes of a [set] depends on
    the hash seed of the process); the literal pieces are written as in the
    source, escapes included. *)
Inductive pyval :=
| VInt (n : Z)
| VStr (s : string)
| VCell (c : cell)
| VStrList (l : list string)
| VStrSet (s : gset string)
| VDict (m : gmap string cell).

Inductive frag :=
| Lit (s : string)
| Interp (v : pyval).

Abbreviation fstring := (list frag).

(** The exceptions of the pipeline.  [ValidationError] is what the
    constructor of [Document] raises for a value it refuses, kept with that
    value; [Foreign] is an exception raised inside a collaborator (pandas,
    yaml, the model loader, the store client). *)
Inductive exn :=
| EnvironmentError (msg : fstring)
| FileNotFoundError (msg : fstring)
| ValueError (msg : fstring)
| KeyError (key : string)
| TypeError
| AttributeError (attr : string)
| ValidationError (input : cell)
| Foreign (name : string).

(** [Document(page_content=..., metadata=...)].  The class declares
    [page_content: str] and validates what it is given: a value that is not
    a string (the NaN that pandas puts in an empty cell, a number) is refused
    with a [ValidationError]; the metadata may hold any values. *)
Definition new_document (text : cell) (meta : gmap string cell) :
    exn + Document :=
  match text with
  | CStr _ => inr {| page_content := text; metadata := meta |}
  | _ => inl (ValidationError text)
  end.

(** A handle on the vector store, as [AstraDBVectorStore(...)] builds it. *)
Record VStore := {
  vs_collection : yaml;
  vs_endpoint : string;
  vs_token : string;
  vs_namespace : string
}.

(** What a run lets the outside see, in order. *)
Inductive event :=
| EvPrint (msg : fstring)
| EvModelLoader
| EvLoadDotenv
| EvReadCsv (path : string)
| EvLoadConfig (path : string)
| EvLoadEmbeddings
| EvStoreConnect (v : VStore)
| EvAddDocuments (docs : list Document)
| EvSimilaritySearch (query : string).

(** The answers of the collaborators. *)
Record World := {
  model_loader_new : exn + unit;
  dotenv_values : gmap string string;
  os_getcwd : string;
  os_path_exists : string → bool;
  pd_read_csv : string → exn + DataFrame;
  yaml_safe_load : string → exn + yaml;
  model_load_embeddings : exn + unit;
  astra_new : VStore → exn + unit;
  astra_add_documents : list Document → exn + list string;
  astra_similarity_search : list Document → string → exn + list Document
}.

(** ** The object and the monad *)

(** The attributes of a [DataIngestion] object; [None] is an attribute that
    has not been assigned yet. *)
Record DataIngestion := {
  model_loader : option unit;
  google_api_key : option string;
  db_api_endpoint : option string;
  db_application_token : option string;
  db_keyspace : option string;
  csv_path : option string;
  product_data : option DataFrame;
  config : option yaml
}.

Definition new_object : DataIngestion :=
  {| model_loader := None; google_api_key := None; db_api_endpoint := None;
     db_application_token := None; db_keyspace := None; csv_path := None;
     product_data := None; config := None |}.

Record State := {
  self : DataIngestion;
  environ : gmap string string;
  out : list event
}.

Definition M (A : Type) : Type := State → (exn + A) * State.

#[global] Instance M_ret : MRet M := λ A a st, (inr a, st).
#[global] Instance M_bind : MBind M := λ A B f m st,
  match m st with
  | (inr a, st') => f a st'
  | (inl e, st') => (inl e, st')
  end.

Definition raise {A} (e : exn) : M A := λ st, (inl e, st).

Definition lift {A} (r : exn + A) : M A := λ st, (r, st).

Definition emit (ev : event) : M unit := λ st,
  (inr tt, {| self := self st; environ := environ st; out := out st ++ [ev] |}).

Definition print (msg : fstring) : M unit := emit (EvPrint msg).

Definition getattr {A} (name : string) (field : DataIngestion → option A) : M A :=
  λ st, match field (self st) with
        | Some a => (inr a, st)
        | None => (inl (AttributeError name), st)
        end.

Definition setattr (upd : DataIngestion → DataIngestion) : M unit := λ st,
  (inr tt, {| self := upd (self st); environ := environ st; out := out st |}).

Definition os_getenv (var : string) : M (option string) :=
  λ st, (inr (environ st !! var), st).

(** [load_dotenv()]: the entries of the [.env] file are added to the
    environment; a variable that is already set keeps its value. *)
Definition load_dotenv (W : World) : M unit := λ st,
  (inr tt, {| self := self st; environ := environ st ∪ dotenv_values W;
              out := out st ++ [EvLoadDotenv] |}).

(** A [for] loop that appends one result per element. *)
Fixpoint for_each {A B} (f : A → exn + B) (l : list A) : exn + list B :=
  match l with
  | [] => inr []
  | x :: l' =>
      match f x with
      | inl e => inl e
      | inr y =>
          match for_each f l' with
          | inl e => inl e
          | inr ys => inr (y :: ys)
          end
      end
  end.

(** A [for] loop run for its effects. *)
Fixpoint for_do {A} (f : A → M unit) (l : list A) : M unit :=
  match l with
  | [] => mret tt
  | x :: l' => f x;; for_do f l'
  end.

(** [d[key]] on a dict or a row. *)
Definition getitem (d : gmap string cell) (key : string) : exn + cell :=
  match d !! key with
  | Some v => inr v
  | None => inl (KeyError key)
  end.

(** [y[key]] on a parsed YAML value. *)
Definition yaml_getitem (y : yaml) (key : string) : exn + yaml :=
  match y with
  | YMap items =>
      match list_find (λ kv, kv.1 = key) items with
      | Some (_, kv) => inr kv.2
      | None => inl (KeyError key)
      end
  | _ => inl TypeError
  end.

(** [posixpath.join]. *)
Fixpoint endswith_sep (s : string) : bool :=
  match s with
  | EmptyString => false
  | String c EmptyString => bool_decide (c = "/"%char)
  | String _ s' => endswith_sep s'
  end.

Definition startswith_sep (s : string) : bool :=
  match s with
  | String c _ => bool_decide (c = "/"%char)
  | EmptyString => false
  end.

Definition os_path_join (a : string) (p : list string) : string :=
  foldl (λ path b,
    if startswith_sep b then b
    else if bool_decide (path = "") || endswith_sep path then path +:+ b
    else path +:+ "/" +:+ b) a p.

(** ** config/config_loader.py *)

Definition load_config (W : World) (config_path : string) : M yaml :=
  emit (EvLoadConfig config_path);;
  lift (yaml_safe_load W config_path).

Definition default_config_path : string := "config/config.yaml".

(** ** data_ingestion/ingestion_pipeline.py *)

Section DataIngestion.
Context (W : World).

Definition required_vars : list string :=
  ["GOOGLE_API_KEY"; "ASTRA_DB_API_ENDPOINT"; "ASTRA_DB_APPLICATION_TOKEN";
   "ASTRA_DB_KEYSPACE"].

Definition missing_in (env : gmap string string) : list string :=
  filter (λ var, env !! var = None) required_vars.

Definition _load_env_variables : M unit :=
  load_dotenv W;;
  missing_vars ← (λ st, (inr (missing_in (environ st)), st));
  match missing_vars with
  | _ :: _ =>
      raise (EnvironmentError
               [Lit "Missing environment variables: ";
                Interp (VStrList missing_vars)])
  | [] =>
      k ← os_getenv "GOOGLE_API_KEY";
      setattr (λ o, {| model_loader := model_loader o; google_api_key := k;
                       db_api_endpoint := db_api_endpoint o;
                       db_application_token := db_application_token o;
                       db_keyspace := db_keyspace o; csv_path := csv_path o;
                       product_data := product_data o; config := config o |});;
      k ← os_getenv "ASTRA_DB_API_ENDPOINT";
      setattr (λ o, {| model_loader := model_loader o;
                       google_api_key := google_api_key o;
                       db_api_endpoint := k;
                       db_application_token := db_application_token o;
                       db_keyspace := db_keyspace o; csv_path := csv_path o;
                       product_data := product_data o; config := config o |});;
      k ← os_getenv "ASTRA_DB_APPLICATION_TOKEN";
      setattr (λ o, {| model_loader := model_loader o;
                       google_api_key := google_api_key o;
                       db_api_endpoint := db_api_endpoint o;
                       db_application_token := k;
                       db_keyspace := db_keyspace o; csv_path := csv_path o;
                       product_data := product_data o; config := config o |});;
      k ← os_getenv "ASTRA_DB_KEYSPACE";
      setattr (λ o, {| model_loader := model_loader o;
                       google_api_key := google_api_key o;
                       db_api_endpoint := db_api_endpoint o;
                       db_application_token := db_application_token o;
                       db_keyspace := k; csv_path := csv_path o;
                       product_data := product_data o; config := config o |})
  end.

Definition csv_file_name : string := "flipkart_product_review.csv".

Definition _get_csv_path : M string :=
  let current_dir := os_getcwd W in
  let csv_path := os_path_join current_dir ["data"; csv_file_name] in
  if negb (os_path_exists W csv_path) then
    raise (FileNotFoundError [Lit "CSV file not found at: "; Interp (VStr csv_path)])
  else mret csv_path.

Definition expected_columns : gset string :=
  {["product_title"; "rating"; "summary"; "review"]}.

Definition _load_csv : M DataFrame :=
  path ← getattr "csv_path" csv_path;
  emit (EvReadCsv path);;
  df ← lift (pd_read_csv W path);
  if negb (bool_decide (expected_columns ⊆ list_to_set (df_columns df))) then
    raise (ValueError [Lit "CSV must contain columns: ";
                       Interp (VStrSet expected_columns)])
  else mret df.

Definition __init__ : M unit :=
  print [Lit "Initializing DataIngestion pipeline..."];;
  emit EvModelLoader;;
  ml ← lift (model_loader_new W);
  setattr (λ o, {| model_loader := Some ml; google_api_key := google_api_key o;
                   db_api_endpoint := db_api_endpoint o;
                   db_application_token := db_application_token o;
                   db_keyspace := db_keyspace o; csv_path := csv_path o;
                   product_data := product_data o; config := config o |});;
  _load_env_variables;;
  p ← _get_csv_path;
  setattr (λ o, {| model_loader := model_loader o;
                   google_api_key := google_api_key o;
                   db_api_endpoint := db_api_endpoint o;
                   db_application_token := db_application_token o;
                   db_keyspace := db_keyspace o; csv_path := Some p;
                   product_data := product_data o; config := config o |});;
  df ← _load_csv;
  setattr (λ o, {| model_loader := model_loader o;
                   google_api_key := google_api_key o;
                   db_api_endpoint := db_api_endpoint o;
                   db_application_token := db_application_token o;
                   db_keyspace := db_keyspace o; csv_path := csv_path o;
                   product_data := Some df; config := config o |});;
  c ← load_config W default_config_path;
  setattr (λ o, {| model_loader := model_loader o;
                   google_api_key := google_api_key o;
                   db_api_endpoint := db_api_endpoint o;
                   db_application_token := db_application_token o;
                   db_keyspace := db_keyspace o; csv_path := csv_path o;
                   product_data := product_data o; config := Some c |}).

(** The body of the first loop of [transform_data]. *)
Definition product_entry (row : Row) : exn + gmap string cell :=
  match getitem row "product_title" with
  | inl e => inl e
  | inr name =>
  match getitem row "rating" with
  | inl e => inl e
  | inr rating =>
  match getitem row "summary" with
  | inl e => inl e
  | inr summary =>
  match getitem row "review" with
  | inl e => inl e
  | inr review =>
      inr (<["product_name" := name]>
          (<["product_rating" := rating]>
          (<["product_summary" := summary]>
          (<["product_review" := review]> ∅))))
  end end end end.

(** The body of its second loop. *)
Definition entry_document (entry : gmap string cell) : exn + Document :=
  match getitem entry "product_name" with
  | inl e => inl e
  | inr name =>
  match getitem entry "product_rating" with
  | inl e => inl e
  | inr rating =>
  match getitem entry "product_summary" with
  | inl e => inl e
  | inr summary =>
      let metadata : gmap string cell :=
        <["product_name" := name]>
        (<["product_rating" := rating]>
        (<["product_summary" := summary]> ∅)) in
      match getitem entry "product_review" with
      | inl e => inl e
      | inr review => new_document review metadata
      end
  end end end.

Definition transform_data : M (list Document) :=
  df ← getattr "product_data" product_data;
  product_list ← lift (for_each product_entry (df_rows df));
  documents ← lift (for_each entry_document product_list);
  print [Lit "Transformed "; Interp (VInt (Z.of_nat (length documents))); Lit " documents."];;
  mret documents.

Definition store_in_vector_db (documents : list Document) : M (VStore * list string) :=
  cfg ← getattr "config" config;
  astra_db ← lift (yaml_getitem cfg "astra_db");
  collection_name ← lift (yaml_getitem astra_db "collection_name");
  _ ← getattr "model_loader" model_loader;
  emit EvLoadEmbeddings;;
  _ ← lift (model_load_embeddings W);
  api_endpoint ← getattr "db_api_endpoint" db_api_endpoint;
  token ← getattr "db_application_token" db_application_token;
  namespace ← getattr "db_keyspace" db_keyspace;
  let vstore := {| vs_collection := collection_name; vs_endpoint := api_endpoint;
                   vs_token := token; vs_namespace := namespace |} in
  emit (EvStoreConnect vstore);;
  lift (astra_new W vstore);;
  emit (EvAddDocuments documents);;
  inserted_ids ← lift (astra_add_documents W documents);
  print [Lit "Successfully inserted "; Interp (VInt (Z.of_nat (length inserted_ids)));
         Lit " documents into AstraDB."];;
  mret (vstore, inserted_ids).

Definition sample_query : string := "Can you tell me the low budget headphone?".

Definition run_pipeline : M unit :=
  documents ← transform_data;
  '(vstore, inserted_ids) ← store_in_vector_db documents;
  let query := sample_query in
  emit (EvSimilaritySearch query);;
  results ← lift (astra_similarity_search W documents query);
  print [Lit "\nSample search results for query: '"; Interp (VStr query); Lit "'"];;
  for_do (λ res,
    print [Lit "Content: "; Interp (VCell (page_content res));
           Lit "\nMetadata: "; Interp (VDict (metadata res)); Lit "\n"]) results.

(** The entry point: [ingestion = DataIngestion(); ingestion.run_pipeline()]. *)
Definition main : M unit :=
  __init__;;
  run_pipeline.

Definition initial_state (env : gmap string string) : State :=
  {| self := new_object; environ := env; out := [] |}.

End DataIngestion.

(** ** Vocabulary of the statements *)

(** The rows the loader lets through: the four required labels are present
    (the test of [_load_csv], on the labels of one row). *)
Definition valid_row (row : Row) : bool :=
  bool_decide (expected_columns ⊆ dom row).

(** The review of the row is a string: what the constructor of [Document]
    takes as text. *)
Definition string_review (row : Row) : bool :=
  match row !! "review" with
  | Some (CStr _) => true
  | _ => false
  end.

(** A frame as pandas builds it: every row carries exactly the labels of
    the frame. *)
Definition frame_wf (df : DataFrame) : bool :=
  forallb (λ row : Row, bool_decide (dom row = list_to_set (df_columns df)))
    (df_rows df).

(** The two loops of [transform_data], without the object around them. *)
Definition transform_rows (rows : list Row) : exn + list Document :=
  match for_each product_entry rows with
  | inl e => inl e
  | inr product_list => for_each entry_document product_list
  end.

(** Both loop bodies applied to one row. *)
Definition row_document (row : Row) : exn + Document :=
  match product_entry row with
  | inl e => inl e
  | inr entry => entry_document entry
  end.

Definition document_of (name rating summary review : cell) : Document :=
  {| page_content := review;
     metadata := <["product_name" := name]>
                 (<["product_rating" := rating]>
                 (<["product_summary" := summary]> ∅)) |}.

Definition metadata_keys : gset string :=
  {["product_name"; "product_rating"; "product_summary"]}.

(** The state after some more events. *)
Definition with_events (st : State) (evs : list event) : State :=
  {| self := self st; environ := environ st; out := out st ++ evs |}.

Definition banner_line : event :=
  EvPrint [Lit "Initializing DataIngestion pipeline..."].

Definition transformed_line (n : nat) : event :=
  EvPrint [Lit "Transformed "; Interp (VInt (Z.of_nat n)); Lit " documents."].

Definition inserted_line (n : nat) : event :=
  EvPrint [Lit "Successfully inserted "; Interp (VInt (Z.of_nat n));
           Lit " documents into AstraDB."].

Definition sample_header : event :=
  EvPrint [Lit "\nSample search results for query: '";
           Interp (VStr sample_query); Lit "'"].

Definition result_line (res : Document) : event :=
  EvPrint [Lit "Content: "; Interp (VCell (page_content res));
           Lit "\nMetadata: "; Interp (VDict (metadata res)); Lit "\n"].

(** The state in which [_load_env_variables] leaves off when it raises. *)
Definition after_dotenv (W : World) (st : State) : State :=
  {| self := self st; environ := environ st ∪ dotenv_values W;
     out := out st ++ [EvLoadDotenv] |}.

(** Where [_get_csv_path] looks for the input. *)
Definition csv_location (W : World) : string :=
  os_path_join (os_getcwd W) ["data"; csv_file_name].

(** Everything [__init__] can let the outside see, in order. *)
Definition init_events (W : World) : list event :=
  [banner_line; EvModelLoader; EvLoadDotenv; EvReadCsv (csv_location W);
   EvLoadConfig default_config_path].

(** The error of [_load_env_variables] for a list of missing names. *)
Definition missing_error (missing : list string) : exn :=
  EnvironmentError [Lit "Missing environment variables: ";
                    Interp (VStrList missing)].

(** The error of [_load_csv]. *)
Definition columns_error : exn :=
  ValueError [Lit "CSV must contain columns: "; Interp (VStrSet expected_columns)].

(** The column names an error message of [_load_csv] lists. *)
Definition named_columns (e : exn) : option (gset string) :=
  match e with
  | ValueError [Lit _; Interp (VStrSet s)] => Some s
  | _ => None
  end.

(** The events that reach the embedding model or the vector store. *)
Definition store_event (ev : event) : bool :=
  match ev with
  | EvLoadEmbeddings | EvStoreConnect _ | EvAddDocuments _
  | EvSimilaritySearch _ => true
  | _ => false
  end.

(** A method that reads the object and the environment without changing
    them, and only adds events. *)
Definition read_only {A} (m : M A) : Prop :=
  ∀ st, self (m st).2 = self st ∧ environ (m st).2 = environ st ∧
        ∃ evs : list event, out (m st).2 = (out st ++ evs)%list.

(** The object is ready for [store_in_vector_db], and the store will be
    opened as [vstore]. *)
Definition store_ready (W : World) (st : State) (vstore : VStore) : Prop :=
  ∃ cfg astra_db ml,
    config (self st) = Some cfg ∧
    yaml_getitem cfg "astra_db" = inr astra_db ∧
    yaml_getitem astra_db "collection_name" = inr (vs_collection vstore) ∧
    model_loader (self st) = Some ml ∧
    model_load_embeddings W = inr tt ∧
    db_api_endpoint (self st) = Some (vs_endpoint vstore) ∧
    db_application_token (self st) = Some (vs_token vstore) ∧
    db_keyspace (self st) = Some (vs_namespace vstore) ∧
    astra_new W vstore = inr tt.

(** ** Sample data *)

Module Sample.

Definition row (title : string) (rating : Z) (summary review : string)
    (extra : gmap string cell) : Row :=
  <["product_title" := CStr title]>
  (<["rating" := CInt rating]>
  (<["summary" := CStr summary]>
  (<["review" := CStr review]> extra))).

Definition rows : list Row :=
  [row "Headphone A" 4 "Good bass" "Great sound for the price" ∅;
   row "Headphone B" 2 "Meh" "" ∅;
   row "Earbuds C" 5 "Love it" "Love it" ∅].

(** The same reviews in a file that has one more column. *)
Definition rows_with_seller : list Row :=
  [row "Headphone A" 4 "Good bass" "Great sound for the price" {["seller" := CStr "acme"]};
   row "Headphone B" 2 "Meh" "" {["seller" := CStr "bolt"]};
   row "Earbuds C" 5 "Love it" "Love it" {["seller" := CNaN]}].

Definition frame : DataFrame :=
  {| df_columns := ["product_title"; "rating"; "summary"; "review"];
     df_rows := rows |}.

Definition frame_with_seller : DataFrame :=
  {| df_columns := ["product_title"; "rating"; "summary"; "review"; "seller"];
     df_rows := rows_with_seller |}.

(** A file without the [review] column. *)
Definition frame_without_review : DataFrame :=
  {| df_columns := ["product_title"; "rating"; "summary"];
     df_rows := [<["product_title" := CStr "Headphone A"]>
                 (<["rating" := CInt 4]> {["summary" := CStr "Good bass"]})] |}.

(** A file with the four columns in which the second review is an empty
    cell: [read_csv] puts NaN there. *)
Definition rows_with_empty_cell : list Row :=
  [row "Headphone A" 4 "Good bass" "Great sound for the price" ∅;
   <["product_title" := CStr "Headphone B"]>
   (<["rating" := CInt 2]>
   (<["summary" := CStr "Meh"]> {["review" := CNaN]}))].

Definition frame_with_empty_cell : DataFrame :=
  {| df_columns := ["product_title"; "rating"; "summary"; "review"];
     df_rows := rows_with_empty_cell |}.

Definition documents : list Document :=
  [document_of (CStr "Headphone A") (CInt 4) (CStr "Good bass")
     (CStr "Great sound for the price");
   document_of (CStr "Headphone B") (CInt 2) (CStr "Meh") (CStr "");
   document_of (CStr "Earbuds C") (CInt 5) (CStr "Love it") (CStr "Love it")].

Definition settings : yaml :=
  YMap [("astra_db", YMap [("collection_name", YStr "reviews")]);
        ("embedding_model", YMap [("model_name", YStr "embedding-001")]);
        ("retriever", YMap [("top_k", YInt 3)])].

Definition vstore : VStore :=
  {| vs_collection := YStr "reviews"; vs_endpoint := "https://db.example";
     vs_token := "token"; vs_namespace := "shop" |}.

(** The process environment has two of the variables, the [.env] file the
    other two. *)
Definition env : gmap string string :=
  <["GOOGLE_API_KEY" := "key"]> {["ASTRA_DB_KEYSPACE" := "shop"]}.

Definition dotenv : gmap string string :=
  <["ASTRA_DB_API_ENDPOINT" := "https://db.example"]>
  (<["ASTRA_DB_APPLICATION_TOKEN" := "token"]>
  {["ASTRA_DB_KEYSPACE" := "ignored"]}).

(** A world that differs from the good one in the input file, the answer of
    [add_documents] and the answer of [similarity_search]. *)
Definition world (file_exists : bool) (csv : exn + DataFrame)
    (ids : exn + list string) (hits : exn + list Document) : World :=
  {| model_loader_new := inr tt;
     dotenv_values := dotenv;
     os_getcwd := "/app";
     os_path_exists := λ p,
       file_exists && bool_decide (p = "/app/data/flipkart_product_review.csv");
     pd_read_csv := λ _, csv;
     yaml_safe_load := λ _, inr settings;
     model_load_embeddings := inr tt;
     astra_new := λ _, inr tt;
     astra_add_documents := λ _, ids;
     astra_similarity_search := λ _ _, hits |}.

Definition good_world : World :=
  world true (inr frame) (inr ["id-0"; "id-1"; "id-2"])
    (inr [document_of (CStr "Headphone B") (CInt 2) (CStr "Meh") (CStr "")]).

(** The store answers with one identifier for three documents. *)
Definition short_world : World :=
  world true (inr frame) (inr ["id-0"]) (inr []).

(** The write succeeds, the search afterwards does not. *)
Definition search_fails_world : World :=
  world true (inr frame) (inr ["id-0"; "id-1"; "id-2"])
    (inl (Foreign "DataAPITimeoutException")).

Definition no_file_world : World :=
  world false (inr frame) (inr []) (inr []).

Definition no_review_world : World :=
  world true (inr frame_without_review) (inr []) (inr []).

Definition empty_cell_world : World :=
  world true (inr frame_with_empty_cell) (inr ["id-0"; "id-1"]) (inr []).

(** No [.env] file: two of the four variables are nowhere. *)
Definition no_dotenv_world : World :=
  {| model_loader_new := inr tt;
     dotenv_values := ∅;
     os_getcwd := "/app";
     os_path_exists := λ _, true;
     pd_read_csv := λ _, inr frame;
     yaml_safe_load := λ _, inr settings;
     model_load_embeddings := inr tt;
     astra_new := λ _, inr tt;
     astra_add_documents := λ _, inr [];
     astra_similarity_search := λ _ _, inr [] |}.

(** An object as [__init__] leaves it in the good world. *)
Definition object : DataIngestion :=
  {| model_loader := Some tt; google_api_key := Some "key";
     db_api_endpoint := Some "https://db.example";
     db_application_token := Some "token"; db_keyspace := Some "shop";
     csv_path := Some "/app/data/flipkart_product_review.csv";
     product_data := Some frame; config := Some settings |}.

Definition state_of (o : DataIngestion) : State :=
  {| self := o; environ := env ∪ dotenv; out := [] |}.

Definition with_data (df : DataFrame) : DataIngestion :=
  {| model_loader := Some tt; google_api_key := Some "key";
     db_api_endpoint := Some "https://db.example";
     db_application_token := Some "token"; db_keyspace := Some "shop";
     csv_path := Some "/app/data/flipkart_product_review.csv";
     product_data := Some df; config := Some settings |}.

End Sample.

(** ** The ways [__init__] can end

    [init_case W env r st]: started on a new object in the environment
    [env], the constructor ends with [r] in the state [st].  The cases follow
    the statements of [__init__] in their order. *)
Inductive init_case (W : World) (env : gmap string string) :
    exn + unit → State → Prop :=
| InitModelLoader e st :
    model_loader_new W = inl e →
    out st = [banner_line; EvModelLoader] →
    init_case W env (inl e) st
| InitCredentials st :
    model_loader_new W = inr tt →
    missing_in (env ∪ dotenv_values W) ≠ [] →
    out st = [banner_line; EvModelLoader; EvLoadDotenv] →
    init_case W env
      (inl (missing_error (missing_in (env ∪ dotenv_values W)))) st
| InitNoFile st :
    model_loader_new W = inr tt →
    missing_in (env ∪ dotenv_values W) = [] →
    os_path_exists W (csv_location W) = false →
    out st = [banner_line; EvModelLoader; EvLoadDotenv] →
    init_case W env
      (inl (FileNotFoundError [Lit "CSV file not found at: ";
                               Interp (VStr (csv_location W))])) st
| InitReadCsv e st :
    model_loader_new W = inr tt →
    missing_in (env ∪ dotenv_values W) = [] →
    os_path_exists W (csv_location W) = true →
    pd_read_csv W (csv_location W) = inl e →
    out st = [banner_line; EvModelLoader; EvLoadDotenv;
              EvReadCsv (csv_location W)] →
    init_case W env (inl e) st
| InitColumns df st :
    model_loader_new W = inr tt →
    missing_in (env ∪ dotenv_values W) = [] →
    os_path_exists W (csv_location W) = true →
    pd_read_csv W (csv_location W) = inr df →
    ¬ expected_columns ⊆ list_to_set (df_columns df) →
    out st = [banner_line; EvModelLoader; EvLoadDotenv;
              EvReadCsv (csv_location W)] →
    init_case W env (inl columns_error) st
| InitConfig df e st :
    model_loader_new W = inr tt →
    missing_in (env ∪ dotenv_values W) = [] →
    os_path_exists W (csv_location W) = true →
    pd_read_csv W (csv_location W) = inr df →
    expected_columns ⊆ list_to_set (df_columns df) →
    yaml_safe_load W default_config_path = inl e →
    out st = init_events W →
    init_case W env (inl e) st
| InitDone df cfg st :
    model_loader_new W = inr tt →
    missing_in (env ∪ dotenv_values W) = [] →
    os_path_exists W (csv_location W) = true →
    pd_read_csv W (csv_location W) = inr df →
    expected_columns ⊆ list_to_set (df_columns df) →
    yaml_safe_load W default_config_path = inr cfg →
    out st = init_events W →
    environ st = env ∪ dotenv_values W →
    self st =
      {| model_loader := Some tt;
         google_api_key := (env ∪ dotenv_values W) !! "GOOGLE_API_KEY";
         db_api_endpoint := (env ∪ dotenv_values W) !! "ASTRA_DB_API_ENDPOINT";
         db_application_token :=
           (env ∪ dotenv_values W) !! "ASTRA_DB_APPLICATION_TOKEN";
         db_keyspace := (env ∪ dotenv_values W) !! "ASTRA_DB_KEYSPACE";
         csv_path := Some (csv_location W);
         product_data := Some df;
         config := Some cfg |} →
    init_case W env (inr tt) st.


(** ** Further vocabulary *)

(** The labels in the order in which the first loop of [transform_data]
    reads them. *)
Definition required_labels : list string :=
  ["product_title"; "rating"; "summary"; "review"].

(** The label at which the reads of a row stop, if any. *)
Definition first_missing (row : Row) : option string :=
  head (filter (λ label, row !! label = None) required_labels).

(** The review of a row when the constructor of [Document] refuses it. *)
Definition refused_review (row : Row) : option cell :=
  match row !! "review" with
  | Some (CStr _) | None => None
  | Some c => Some c
  end.

(** The first review, in the order of the rows, that the constructor
    refuses. *)
Definition first_refused (rows : list Row) : option cell :=
  head (omap refused_review rows).

Definition is_key_error (e : exn) : bool :=
  match e with
  | KeyError _ => true
  | _ => false
  end.

(** Every attribute of the object has been assigned. *)
Definition fully_initialised (o : DataIngestion) : bool :=
  bool_decide (is_Some (model_loader o)) &&
  bool_decide (is_Some (google_api_key o)) &&
  bool_decide (is_Some (db_api_endpoint o)) &&
  bool_decide (is_Some (db_application_token o)) &&
  bool_decide (is_Some (db_keyspace o)) &&
  bool_decide (is_Some (csv_path o)) &&
  bool_decide (is_Some (product_data o)) &&
  bool_decide (is_Some (config o)).

Definition add_event (ev : event) : bool :=
  match ev with
  | EvAddDocuments _ => true
  | _ => false
  end.

Definition search_event (ev : event) : bool :=
  match ev with
  | EvSimilaritySearch _ => true
  | _ => false
  end.

(** The events of a run that went through, after those of [__init__]. *)
Definition run_events (vstore : VStore) (docs : list Document)
    (ids : list string) (results : list Document) : list event :=
  [transformed_line (length docs); EvLoadEmbeddings; EvStoreConnect vstore;
   EvAddDocuments docs; inserted_line (length ids);
   EvSimilaritySearch sample_query; sample_header]
  ++ (result_line <$> results).

(** ** test.py

    The script loads the configuration, reads three settings and prints
    them.  Its output is kept as the values printed, in order. *)
Inductive script_event :=
| ScLoadConfig (path : string)
| ScPrint (value : yaml).

(** The three assignments of the script: six subscriptions, in order. *)
Definition script_settings (config : yaml) : exn + (yaml * yaml * yaml) :=
  match yaml_getitem config "astra_db" with
  | inl e => inl e
  | inr astra_db =>
  match yaml_getitem astra_db "collection_name" with
  | inl e => inl e
  | inr collection_name =>
  match yaml_getitem config "embedding_model" with
  | inl e => inl e
  | inr embedding_model =>
  match yaml_getitem embedding_model "model_name" with
  | inl e => inl e
  | inr embedding_model_name =>
  match yaml_getitem config "retriever" with
  | inl e => inl e
  | inr retriever =>
  match yaml_getitem retriever "top_k" with
  | inl e => inl e
  | inr top_k => inr (collection_name, embedding_model_name, top_k)
  end end end end end end.

Definition test_script (W : World) : (exn + unit) * list script_event :=
  let trace := [ScLoadConfig default_config_path] in
  match yaml_safe_load W default_config_path with
  | inl e => (inl e, trace)
  | inr config =>
      match script_settings config with
      | inl e => (inl e, trace)
      | inr (collection_name, embedding_model_name, top_k) =>
          (inr tt, (trace ++ [ScPrint collection_name;
                              ScPrint embedding_model_name;
                              ScPrint top_k])%list)
      end
  end.

(** ** The ways [run_pipeline] can end

    [run_case W st r evs]: started in [st], the run ends with [r] after the
    events [evs].  Either it raises before the call of [add_documents], or
    that call raises, or the search after it raises, or the run goes
    through. *)
Definition write_events (vstore : VStore) (docs : list Document) : list event :=
  [transformed_line (length docs); EvLoadEmbeddings; EvStoreConnect vstore;
   EvAddDocuments docs].

Inductive run_case (W : World) (st : State) : exn + unit → list event → Prop :=
| RunNoWrite e evs :
    Forall (λ ev, add_event ev = false) evs →
    Forall (λ ev, search_event ev = false) evs →
    run_case W st (inl e) evs
| RunWriteFails df vstore docs e :
    product_data (self st) = Some df →
    transform_rows (df_rows df) = inr docs →
    store_ready W st vstore →
    astra_add_documents W docs = inl e →
    run_case W st (inl e) (write_events vstore docs)
| RunSearchFails df vstore docs ids e :
    product_data (self st) = Some df →
    transform_rows (df_rows df) = inr docs →
    store_ready W st vstore →
    astra_add_documents W docs = inr ids →
    astra_similarity_search W docs sample_query = inl e →
    run_case W st (inl e)
      (write_events vstore docs
       ++ [inserted_line (length ids); EvSimilaritySearch sample_query])
| RunDone df vstore docs ids results :
    product_data (self st) = Some df →
    transform_rows (df_rows df) = inr docs →
    store_ready W st vstore →
    astra_add_documents W docs = inr ids →
    astra_similarity_search W docs sample_query = inr results →
    run_case W st (inr tt) (run_events vstore docs ids results).
(** * Properties *)

(** ** Loops *)

Section Loops.
Context {A B : Type}.
Implicit Types (f g : A → exn + B) (l : list A) (ys : list B).

(** A loop returns normally exactly when every body does, and then it has
    one result per element, in order. *)
Lemma for_each_inr f l ys :
  for_each f l = inr ys ↔ Forall2 (λ x y, f x = inr y) l ys.
Proof.
  revert ys. induction l as [|x l IH]; intros ys; simpl.
  - split.
    + intros [= <-]. constructor.
    + intros H. by inversion H.
  - split.
    + destruct (f x) as [e|y] eqn:Hx; [done|].
      destruct (for_each f l) as [e|ys'] eqn:Hl; [done|].
      intros [= <-]. constructor; [done|]. by apply IH.
    + intros H. inversion H as [|? y ? ys' Hx Hl]; subst.
      rewrite Hx. apply IH in Hl. by rewrite Hl.
Qed.

Lemma for_each_total f l :
  Forall (λ x, ∃ y, f x = inr y) l → ∃ ys, for_each f l = inr ys.
Proof.
  induction 1 as [|x l [y Hx] _ [ys Hl]]; simpl.
  - by eexists.
  - rewrite Hx, Hl. by eexists.
Qed.

Lemma for_each_agree {A'} (g' : A' → exn + B) f l (l' : list A') :
  Forall2 (λ x x', f x = g' x') l l' → for_each f l = for_each g' l'.
Proof.
  induction 1 as [|x x' l l' Hx _ IH]; simpl; [done|].
  by rewrite Hx, IH.
Qed.

(** A loop over two lists one after the other. *)
Lemma for_each_app f (l1 l2 : list A) :
  for_each f (l1 ++ l2)%list =
    match for_each f l1 with
    | inl e => inl e
    | inr ys1 =>
        match for_each f l2 with
        | inl e => inl e
        | inr ys2 => inr (ys1 ++ ys2)%list
        end
    end.
Proof.
  induction l1 as [|x l1 IH]; simpl.
  - by destruct (for_each f l2).
  - destruct (f x) as [e|y]; [done|]. rewrite IH.
    destruct (for_each f l1) as [e|ys1]; [done|].
    by destruct (for_each f l2).
Qed.

(** A loop that raises does so at some element, after the bodies of the
    elements before it have returned. *)
Lemma for_each_inl f l (e : exn) :
  for_each f l = inl e →
  ∃ l1 x l2, l = (l1 ++ x :: l2)%list ∧
             Forall (λ x', ∃ y, f x' = inr y) l1 ∧ f x = inl e.
Proof.
  induction l as [|x l IH]; simpl; [done|].
  destruct (f x) as [e'|y] eqn:Hx.
  - intros [= ->]. exists [], x, l. by repeat split.
  - destruct (for_each f l) as [e'|ys]; [|done].
    intros [= ->]. destruct (IH eq_refl) as (l1 & x' & l2 & -> & Hl1 & Hx').
    exists (x :: l1), x', l2. repeat split; [|done].
    constructor; [by eexists|done].
Qed.

End Loops.

(** ** The transformation of rows into documents *)

Section Transform.

Lemma valid_row_lookup row k :
  valid_row row = true → k ∈ expected_columns → is_Some (row !! k).
Proof.
  unfold valid_row. intros Hv Hk.
  apply bool_decide_eq_true_1 in Hv.
  apply elem_of_dom. by apply Hv.
Qed.

(** The constructor takes a string and nothing else. *)
Lemma new_document_inr text meta d :
  new_document text meta = inr d ↔
  (∃ s, text = CStr s) ∧ d = {| page_content := text; metadata := meta |}.
Proof.
  unfold new_document. split.
  - destruct text; intros [= <-]. split; [by eexists|done].
  - intros [[s ->] ->]. done.
Qed.

Lemma new_document_inl text meta e :
  new_document text meta = inl e ↔
  (∀ s, text ≠ CStr s) ∧ e = ValidationError text.
Proof.
  unfold new_document. split.
  - destruct text; intros [= <-]; by split.
  - intros [Hs ->]. destruct text as [s| |]; [by destruct (Hs s)|done..].
Qed.

Lemma entry_document_built name rating summary review :
  entry_document (<["product_name" := name]>
                 (<["product_rating" := rating]>
                 (<["product_summary" := summary]>
                 (<["product_review" := review]> ∅))))
  = new_document review (metadata (document_of name rating summary review)).
Proof.
  unfold entry_document, getitem. by simplify_map_eq.
Qed.

(** What the first loop body does to a row, by its four reads. *)
Lemma product_entry_reads row :
  product_entry row =
    match row !! "product_title" with
    | None => inl (KeyError "product_title")
    | Some name =>
    match row !! "rating" with
    | None => inl (KeyError "rating")
    | Some rating =>
    match row !! "summary" with
    | None => inl (KeyError "summary")
    | Some summary =>
    match row !! "review" with
    | None => inl (KeyError "review")
    | Some review =>
        inr (<["product_name" := name]>
            (<["product_rating" := rating]>
            (<["product_summary" := summary]>
            (<["product_review" := review]> ∅))))
    end end end end.
Proof.
  unfold product_entry, getitem.
  destruct (row !! "product_title"); [|done].
  destruct (row !! "rating"); [|done].
  destruct (row !! "summary"); [|done].
  by destruct (row !! "review").
Qed.

(** What the two loop bodies do to a row: four reads, then the
    constructor. *)
Lemma row_document_reads row :
  row_document row =
    match row !! "product_title" with
    | None => inl (KeyError "product_title")
    | Some name =>
    match row !! "rating" with
    | None => inl (KeyError "rating")
    | Some rating =>
    match row !! "summary" with
    | None => inl (KeyError "summary")
    | Some summary =>
    match row !! "review" with
    | None => inl (KeyError "review")
    | Some review =>
        new_document review
          (metadata (document_of name rating summary review))
    end end end end.
Proof.
  unfold row_document. rewrite product_entry_reads.
  destruct (row !! "product_title"); [|done].
  destruct (row !! "rating"); [|done].
  destruct (row !! "summary"); [|done].
  destruct (row !! "review"); [|done].
  apply entry_document_built.
Qed.

(** The reads of a row stop at its first missing label. *)
Lemma product_entry_first_missing row :
  match first_missing row with
  | Some label => product_entry row = inl (KeyError label)
  | None => ∃ entry, product_entry row = inr entry
  end.
Proof.
  rewrite product_entry_reads. unfold first_missing, required_labels.
  rewrite !filter_cons, filter_nil.
  destruct (row !! "product_title"); destruct (row !! "rating");
    destruct (row !! "summary"); destruct (row !! "review");
    repeat case_decide; simpl; try done; eauto.
Qed.

Lemma first_missing_required row label :
  first_missing row = Some label →
  label ∈ required_labels ∧ row !! label = None.
Proof.
  unfold first_missing. intros H.
  apply head_Some_elem_of, list_elem_of_filter in H. tauto.
Qed.

Lemma first_missing_valid row :
  first_missing row = None ↔ valid_row row = true.
Proof.
  unfold valid_row. rewrite bool_decide_eq_true. split.
  - intros Hnone label Hlabel. apply elem_of_dom.
    destruct (row !! label) eqn:Hl; [by eexists|].
    assert (label ∈ filter (λ label, row !! label = None) required_labels)
      as Hin.
    { apply list_elem_of_filter. split; [done|].
      unfold expected_columns in Hlabel. unfold required_labels.
      rewrite !elem_of_union, !elem_of_singleton in Hlabel.
      rewrite !elem_of_cons. tauto. }
    unfold first_missing in Hnone.
    destruct (filter _ required_labels); [|done].
    by apply elem_of_nil in Hin.
  - intros Hsub. destruct (first_missing row) as [label|] eqn:Hm; [|done].
    apply first_missing_required in Hm as [Hreq Hnone].
    assert (label ∈ expected_columns) as Hin.
    { unfold required_labels in Hreq. unfold expected_columns.
      rewrite !elem_of_cons, elem_of_nil in Hreq.
      rewrite !elem_of_union, !elem_of_singleton. tauto. }
    apply Hsub, elem_of_dom in Hin as [c Hc]. congruence.
Qed.

(** The first loop raises nothing but a [KeyError]. *)
Lemma product_entry_inl row e :
  product_entry row = inl e →
  ∃ label, first_missing row = Some label ∧ e = KeyError label.
Proof.
  intros He. pose proof (product_entry_first_missing row) as H.
  destruct (first_missing row) as [label|].
  - exists label. split; [done|]. congruence.
  - destruct H as [entry Hentry]. congruence.
Qed.

Lemma product_entry_valid row :
  valid_row row = true → ∃ entry, product_entry row = inr entry.
Proof.
  intros Hv. apply first_missing_valid in Hv.
  pose proof (product_entry_first_missing row) as H. by rewrite Hv in H.
Qed.

(** The second loop goes through the entries that the first loop made: it
    does to them what both bodies do to the rows. *)
Lemma transform_rows_two_loops rows :
  transform_rows rows =
    match for_each product_entry rows with
    | inl e => inl e
    | inr _ => for_each row_document rows
    end.
Proof.
  unfold transform_rows.
  destruct (for_each product_entry rows) as [e|product_list] eqn:Hfirst;
    [done|].
  apply for_each_inr in Hfirst. apply for_each_agree.
  apply Forall2_flip. eapply Forall2_impl; [exact Hfirst|].
  intros row entry Hentry. cbv beta in Hentry.
  unfold row_document. by rewrite Hentry.
Qed.

Lemma transform_data_unfold st :
  transform_data st =
    match product_data (self st) with
    | None => (inl (AttributeError "product_data"), st)
    | Some df =>
        match transform_rows (df_rows df) with
        | inl e => (inl e, st)
        | inr docs => (inr docs, with_events st [transformed_line (length docs)])
        end
    end.
Proof.
  unfold transform_data, transform_rows, getattr, lift, print, emit,
    mbind, M_bind, mret, M_ret.
  destruct (product_data (self st)) as [df|]; [|done].
  destruct (for_each product_entry (df_rows df)) as [e|pl]; [done|].
  by destruct (for_each entry_document pl).
Qed.

(** The documents are made row by row. *)
Lemma transform_rows_inr rows docs :
  transform_rows rows = inr docs ↔
  Forall2 (λ row d, row_document row = inr d) rows docs.
Proof.
  rewrite transform_rows_two_loops, <- for_each_inr. split.
  - by destruct (for_each product_entry rows).
  - intros Hdocs.
    destruct (for_each_total product_entry rows) as [pl ->]; [|done].
    apply for_each_inr in Hdocs. apply Forall_forall. intros row Hrow.
    apply list_elem_of_lookup in Hrow as [i Hi].
    destruct (Forall2_lookup_l _ _ _ _ _ Hdocs Hi) as (d & _ & Hd).
    unfold row_document in Hd.
    destruct (product_entry row) as [e|entry]; [done|]. by eexists.
Qed.

(** A row with the four labels and a string for a review makes a
    document. *)
Lemma row_document_valid row :
  valid_row row = true →
  string_review row = true →
  ∃ name rating summary review,
    row !! "product_title" = Some name ∧ row !! "rating" = Some rating ∧
    row !! "summary" = Some summary ∧ row !! "review" = Some (CStr review) ∧
    row_document row = inr (document_of name rating summary (CStr review)).
Proof.
  intros Hv Hs.
  destruct (valid_row_lookup row "product_title" Hv) as [name Hn];
    [unfold expected_columns; set_solver|].
  destruct (valid_row_lookup row "rating" Hv) as [rating Hr];
    [unfold expected_columns; set_solver|].
  destruct (valid_row_lookup row "summary" Hv) as [summary Hsum];
    [unfold expected_columns; set_solver|].
  unfold string_review in Hs.
  destruct (row !! "review") as [[review| |]|] eqn:Hw; try done.
  exists name, rating, summary, review.
  rewrite row_document_reads, Hn, Hr, Hsum, Hw. done.
Qed.

(** And a row that makes a document is such a row. *)
Lemma row_document_inr row d :
  row_document row = inr d →
  valid_row row = true ∧ string_review row = true.
Proof.
  intros Hd. split.
  - apply first_missing_valid.
    destruct (first_missing row) as [label|] eqn:Hm; [|done].
    pose proof (product_entry_first_missing row) as H. rewrite Hm in H.
    unfold row_document in Hd. by rewrite H in Hd.
  - rewrite row_document_reads in Hd. unfold string_review.
    destruct (row !! "product_title"); [|done].
    destruct (row !! "rating"); [|done].
    destruct (row !! "summary"); [|done].
    destruct (row !! "review") as [review|]; [|done].
    apply new_document_inr in Hd as [[s ->] _]. done.
Qed.

Lemma transform_rows_valid rows :
  Forall (λ row, valid_row row = true ∧ string_review row = true) rows →
  ∃ docs, transform_rows rows = inr docs ∧
          Forall2 (λ row d, row_document row = inr d) rows docs.
Proof.
  intros Hv.
  destruct (for_each_total row_document rows) as [docs Hd].
  - eapply Forall_impl; [exact Hv|]. intros row [Hrow Hs].
    destruct (row_document_valid row Hrow Hs) as (?&?&?&?&_&_&_&_&H). eauto.
  - apply for_each_inr in Hd. exists docs. split; [|done].
    by apply transform_rows_inr.
Qed.

(** The entries, and so the documents, depend on the four required cells of
    each row only. *)
Lemma product_entry_agree (r1 r2 : Row) :
  (∀ k, k ∈ expected_columns → r1 !! k = r2 !! k) →
  product_entry r1 = product_entry r2.
Proof.
  intros H. rewrite !product_entry_reads.
  rewrite (H "product_title"), (H "rating"), (H "summary"), (H "review");
    [done|unfold expected_columns; set_solver..].
Qed.

Lemma row_document_agree (r1 r2 : Row) :
  (∀ k, k ∈ expected_columns → r1 !! k = r2 !! k) →
  row_document r1 = row_document r2.
Proof.
  intros H. unfold row_document. by rewrite (product_entry_agree r1 r2 H).
Qed.

Lemma metadata_dom name rating summary review :
  dom (metadata (document_of name rating summary review)) = metadata_keys.
Proof.
  unfold document_of, metadata_keys. simpl.
  rewrite !dom_insert_L, dom_empty_L. set_solver.
Qed.

(** The rows of a frame that passes the test of [_load_csv] are valid. *)
Lemma loaded_rows_valid (df : DataFrame) :
  frame_wf df = true →
  expected_columns ⊆ list_to_set (df_columns df) →
  Forall (λ row, valid_row row = true) (df_rows df).
Proof.
  intros Hwf Hcols. unfold frame_wf in Hwf.
  rewrite forallb_forall in Hwf. apply Forall_forall. intros row Hrow.
  apply list_elem_of_In, Hwf in Hrow. apply bool_decide_eq_true_1 in Hrow.
  unfold valid_row. apply bool_decide_eq_true_2. by rewrite Hrow.
Qed.

Lemma product_review_not_key : "product_review" ∉ metadata_keys.
Proof.
  apply (bool_decide_unpack ("product_review" ∉ metadata_keys)).
  vm_compute. exact I.
Qed.

End Transform.

(** C1, as it is stated, fails.  A file with the four columns passes the
    test of [_load_csv] whatever its cells hold; where the review of a row is
    an empty cell, the constructor of [Document] refuses it, and
    [transform_data] raises instead of returning one document per row.  The
    run as a whole ends there, after the constructor and before any line
    about documents. *)
Lemma empty_cell_stops_transform :
  expected_columns ⊆ list_to_set (df_columns Sample.frame_with_empty_cell) ∧
  frame_wf Sample.frame_with_empty_cell = true ∧
  Forall (λ row, valid_row row = true) Sample.rows_with_empty_cell ∧
  transform_data
    (Sample.state_of (Sample.with_data Sample.frame_with_empty_cell))
  = (inl (ValidationError CNaN),
     Sample.state_of (Sample.with_data Sample.frame_with_empty_cell)) ∧
  (__init__ Sample.empty_cell_world (initial_state Sample.env)).1 = inr tt ∧
  (main Sample.empty_cell_world (initial_state Sample.env)).1
  = inl (ValidationError CNaN) ∧
  out (main Sample.empty_cell_world (initial_state Sample.env)).2
  = init_events Sample.empty_cell_world.
Proof.
  split.
  { apply (bool_decide_unpack
             (expected_columns
              ⊆ list_to_set (df_columns Sample.frame_with_empty_cell))).
    vm_compute. exact I. }
  split; [vm_compute; reflexivity|].
  split; [repeat constructor|].
  repeat split; vm_compute; reflexivity.
Qed.

(** C1, as the code has it.  For every sequence of rows that have the four
    labels and a string for a review, [transform_data] returns one document
    per row, in order: the i-th document has the i-th row's [review] as its
    text and exactly [product_name], [product_rating] and [product_summary],
    taken from the row's [product_title], [rating] and [summary], as its
    metadata.  Nothing more is asked of the review, so the empty string
    makes a document like any other. *)
Theorem transform_data_maps_each_row (st : State) (df : DataFrame) :
  product_data (self st) = Some df →
  Forall (λ row, valid_row row = true ∧ string_review row = true)
    (df_rows df) →
  ∃ docs st',
    transform_data st = (inr docs, st') ∧
    length docs = length (df_rows df) ∧
    ∀ i row, df_rows df !! i = Some row →
      ∃ name rating summary review,
        row !! "product_title" = Some name ∧ row !! "rating" = Some rating ∧
        row !! "summary" = Some summary ∧
        row !! "review" = Some (CStr review) ∧
        docs !! i = Some {| page_content := CStr review;
                            metadata := <["product_name" := name]>
                                        (<["product_rating" := rating]>
                                        (<["product_summary" := summary]> ∅)) |}.
Proof.
  intros Hdf Hvalid.
  destruct (transform_rows_valid _ Hvalid) as (docs & Hrows & Hall).
  exists docs, (with_events st [transformed_line (length docs)]).
  split; [by rewrite transform_data_unfold, Hdf, Hrows|].
  split; [symmetry; by eapply Forall2_length|].
  intros i row Hi.
  destruct (Forall2_lookup_l _ _ _ _ _ Hall Hi) as (d & Hd & Hrow).
  rewrite Forall_lookup in Hvalid.
  destruct (Hvalid _ _ Hi) as [Hlabels Hstring].
  destruct (row_document_valid row Hlabels Hstring)
    as (name & rating & summary & review & Hn & Hr & Hs & Hw & Hdoc).
  exists name, rating, summary, review.
  rewrite Hdoc in Hrow. injection Hrow as <-. done.
Qed.

Lemma transform_data_maps_each_row_witness :
  Forall (λ row, valid_row row = true ∧ string_review row = true)
    Sample.rows ∧
  ∃ docs st',
    transform_data (Sample.state_of Sample.object) = (inr docs, st') ∧
    length docs = 3 ∧
    ∀ i row, Sample.rows !! i = Some row →
      ∃ name rating summary review,
        row !! "product_title" = Some name ∧ row !! "rating" = Some rating ∧
        row !! "summary" = Some summary ∧
        row !! "review" = Some (CStr review) ∧
        docs !! i = Some {| page_content := CStr review;
                            metadata := <["product_name" := name]>
                                        (<["product_rating" := rating]>
                                        (<["product_summary" := summary]> ∅)) |}.
Proof.
  assert (Hv : Forall (λ row, valid_row row = true ∧ string_review row = true)
                 Sample.rows)
    by (repeat constructor).
  split; [exact Hv|].
  exact (transform_data_maps_each_row (Sample.state_of Sample.object)
           Sample.frame eq_refl Hv).
Defined.

(** The second row of the sample has an empty review and still has its
    document. *)
Example transform_data_empty_review :
  (transform_data (Sample.state_of Sample.object)).1 = inr Sample.documents ∧
  page_content <$> (Sample.documents !! 1%nat) = Some (CStr "").
Proof. split; vm_compute; reflexivity. Qed.

(** C7.  The metadata of a document has the keys [product_name],
    [product_rating] and [product_summary] and no other; the review, a
    string, is the document's text, and a row with another string for a
    review gives the same metadata under the new text: nothing of the review
    goes into the metadata. *)
Theorem metadata_leaves_review_out (st st' : State) (df : DataFrame)
    (docs : list Document) :
  product_data (self st) = Some df →
  transform_data st = (inr docs, st') →
  Forall2 (λ row d,
      row !! "review" = Some (page_content d) ∧
      (∃ review, page_content d = CStr review) ∧
      dom (metadata d) = metadata_keys ∧
      ("product_review" ∉ dom (metadata d)) ∧
      ∀ other : string,
        row_document (<["review" := CStr other]> row)
        = inr {| page_content := CStr other; metadata := metadata d |})
    (df_rows df) docs.
Proof.
  intros Hdf Hrun.
  rewrite transform_data_unfold, Hdf in Hrun.
  destruct (transform_rows (df_rows df)) as [e|docs'] eqn:Hrows; [done|].
  injection Hrun as -> _.
  apply transform_rows_inr in Hrows.
  eapply Forall2_impl; [exact Hrows|].
  intros row d Hd. cbv beta in Hd. rewrite row_document_reads in Hd.
  destruct (row !! "product_title") as [name|] eqn:Hn; [|done].
  destruct (row !! "rating") as [rating|] eqn:Hr; [|done].
  destruct (row !! "summary") as [summary|] eqn:Hs; [|done].
  destruct (row !! "review") as [review|] eqn:Hw; [|done].
  apply new_document_inr in Hd as [[text ->] ->].
  cbn [metadata page_content].
  split; [done|]. split; [by eexists|].
  split; [apply (metadata_dom name rating summary (CStr text))|].
  split.
  { rewrite (metadata_dom name rating summary (CStr text)).
    apply product_review_not_key. }
  intros other. rewrite row_document_reads.
  rewrite !lookup_insert_ne by done.
  rewrite lookup_insert_eq, Hn, Hr, Hs. done.
Qed.

Lemma metadata_leaves_review_out_witness :
  Forall2 (λ row d,
      row !! "review" = Some (page_content d) ∧
      (∃ review, page_content d = CStr review) ∧
      dom (metadata d) = metadata_keys ∧
      ("product_review" ∉ dom (metadata d)) ∧
      ∀ other : string,
        row_document (<["review" := CStr other]> row)
        = inr {| page_content := CStr other; metadata := metadata d |})
    Sample.rows Sample.documents.
Proof.
  exact (metadata_leaves_review_out (Sample.state_of Sample.object)
           (with_events (Sample.state_of Sample.object) [transformed_line 3])
           Sample.frame Sample.documents eq_refl eq_refl).
Defined.

(** C8.  Two frames whose rows agree, index for index, on [product_title],
    [rating], [summary] and [review] give the same result, whatever other
    columns and whatever else the two objects hold. *)
Theorem transform_data_ignores_other_columns (st1 st2 : State)
    (df1 df2 : DataFrame) :
  product_data (self st1) = Some df1 →
  product_data (self st2) = Some df2 →
  Forall2 (λ r1 r2 : Row, ∀ k, k ∈ expected_columns → r1 !! k = r2 !! k)
    (df_rows df1) (df_rows df2) →
  (transform_data st1).1 = (transform_data st2).1.
Proof.
  intros H1 H2 Hagree.
  rewrite !transform_data_unfold, H1, H2.
  assert (transform_rows (df_rows df1) = transform_rows (df_rows df2)) as ->.
  { unfold transform_rows.
    assert (for_each product_entry (df_rows df1)
            = for_each product_entry (df_rows df2)) as ->; [|done].
    apply for_each_agree. eapply Forall2_impl; [exact Hagree|].
    intros r1 r2 H. by apply product_entry_agree. }
  by destruct (transform_rows (df_rows df2)).
Qed.

Lemma transform_data_ignores_other_columns_witness :
  (transform_data (Sample.state_of (Sample.with_data Sample.frame_with_seller))).1
  = (transform_data (Sample.state_of Sample.object)).1.
Proof.
  apply (transform_data_ignores_other_columns
           (Sample.state_of (Sample.with_data Sample.frame_with_seller))
           (Sample.state_of Sample.object)
           Sample.frame_with_seller Sample.frame eq_refl eq_refl).
  repeat constructor; intros k Hk; unfold expected_columns in Hk;
    repeat (apply elem_of_union in Hk as [Hk|Hk]);
    apply elem_of_singleton in Hk; subst k; vm_compute; reflexivity.
Defined.

(** ** Methods that leave the object alone *)

Section ReadOnly.
Context {A B : Type}.

Lemma read_only_ret (a : A) : read_only (mret a).
Proof. intros st. repeat split. exists []. simpl. by rewrite app_nil_r. Qed.

Lemma read_only_raise (e : exn) : read_only (raise e : M A).
Proof. intros st. repeat split. exists []. simpl. by rewrite app_nil_r. Qed.

Lemma read_only_lift (r : exn + A) : read_only (lift r).
Proof. intros st. repeat split. exists []. simpl. by rewrite app_nil_r. Qed.

Lemma read_only_getattr name (field : DataIngestion → option A) :
  read_only (getattr name field).
Proof.
  intros st. unfold getattr.
  destruct (field (self st)); repeat split; exists []; simpl;
    by rewrite app_nil_r.
Qed.

Lemma read_only_bind (m : M A) (f : A → M B) :
  read_only m → (∀ a, read_only (f a)) → read_only (m ≫= f).
Proof.
  intros Hm Hf st. unfold mbind, M_bind.
  destruct (Hm st) as (Hs & He & evs & Ho).
  destruct (m st) as [[e|a] st1]; simpl in *.
  - repeat split; eauto.
  - destruct (Hf a st1) as (Hs' & He' & evs' & Ho').
    rewrite Hs', He', Ho', Hs, He, Ho. repeat split.
    exists (evs ++ evs')%list. by rewrite app_assoc.
Qed.

End ReadOnly.

Lemma read_only_emit ev : read_only (emit ev).
Proof. intros st. repeat split. by exists [ev]. Qed.

Lemma read_only_for_do {A} (f : A → M unit) (l : list A) :
  (∀ x, read_only (f x)) → read_only (for_do f l).
Proof.
  intros Hf. induction l as [|x l IH]; simpl.
  - apply read_only_ret.
  - apply read_only_bind; [apply Hf|]. intros _. exact IH.
Qed.

Ltac read_only_step :=
  first
    [ apply read_only_ret | apply read_only_raise | apply read_only_lift
    | apply read_only_getattr | apply read_only_emit
    | apply read_only_for_do; intros ?
    | apply read_only_bind; [|intros ?] ].

Lemma read_only_transform_data : read_only transform_data.
Proof. unfold transform_data, print. repeat read_only_step. Qed.

Lemma read_only_store_in_vector_db W docs :
  read_only (store_in_vector_db W docs).
Proof. unfold store_in_vector_db, print. repeat read_only_step. Qed.

Lemma read_only_run_pipeline W : read_only (run_pipeline W).
Proof.
  unfold run_pipeline, print.
  apply read_only_bind; [apply read_only_transform_data|]. intros docs.
  apply read_only_bind; [apply read_only_store_in_vector_db|].
  intros [vstore ids]. repeat read_only_step.
Qed.

(** C9, as the code has it.  [transform_data] changes neither the object nor
    the environment and reaches no collaborator; its result is determined by
    the rows held in [product_data]; and when it returns it has written one
    line, the number of documents, to the console. *)
Theorem transform_data_effects (st : State) :
  self (transform_data st).2 = self st ∧
  environ (transform_data st).2 = environ st ∧
  match (transform_data st).1 with
  | inr docs =>
      out (transform_data st).2 = (out st ++ [transformed_line (length docs)])%list
  | inl _ => out (transform_data st).2 = out st
  end ∧
  ∀ st2, product_data (self st2) = product_data (self st) →
         (transform_data st2).1 = (transform_data st).1.
Proof.
  split; [apply read_only_transform_data|].
  split; [apply read_only_transform_data|].
  split.
  - rewrite transform_data_unfold.
    destruct (product_data (self st)) as [df|]; [|done].
    by destruct (transform_rows (df_rows df)).
  - intros st2 H. rewrite !transform_data_unfold, H.
    destruct (product_data (self st)) as [df|]; [|done].
    by destruct (transform_rows (df_rows df)).
Qed.

Lemma transform_data_effects_witness :
  (transform_data
     {| self := {| model_loader := None; google_api_key := None;
                   db_api_endpoint := None; db_application_token := None;
                   db_keyspace := None; csv_path := None;
                   product_data := Some Sample.frame; config := None |};
        environ := ∅;
        out := [banner_line] |}).1
  = (transform_data (Sample.state_of Sample.object)).1.
Proof.
  exact (proj2 (proj2 (proj2
           (transform_data_effects (Sample.state_of Sample.object))))
           {| self := {| model_loader := None; google_api_key := None;
                         db_api_endpoint := None; db_application_token := None;
                         db_keyspace := None; csv_path := None;
                         product_data := Some Sample.frame; config := None |};
              environ := ∅;
              out := [banner_line] |}
           eq_refl).
Defined.

(** C9, as it is stated, fails: a call of [transform_data] on the sample
    writes a line to the console. *)
Lemma transform_data_writes_console :
  out (Sample.state_of Sample.object) = [] ∧
  out (transform_data (Sample.state_of Sample.object)).2 = [transformed_line 3] ∧
  (transform_data (Sample.state_of Sample.object)).2 ≠ Sample.state_of Sample.object.
Proof.
  split; [reflexivity|]. split; [vm_compute; reflexivity|].
  intros H. apply (f_equal out) in H. vm_compute in H. discriminate H.
Qed.

(** ** Construction of the object *)

Section Init.
Context (W : World).

Lemma load_env_variables_missing st :
  missing_in (environ st ∪ dotenv_values W) ≠ [] →
  _load_env_variables W st
  = (inl (missing_error (missing_in (environ st ∪ dotenv_values W))),
     after_dotenv W st).
Proof.
  intros Hm. unfold _load_env_variables, load_dotenv, mbind, M_bind, raise.
  simpl. by destruct (missing_in (environ st ∪ dotenv_values W)).
Qed.

Lemma load_env_variables_present st :
  missing_in (environ st ∪ dotenv_values W) = [] →
  ∃ st', _load_env_variables W st = (inr tt, st') ∧
         environ st' = environ st ∪ dotenv_values W ∧
         out st' = (out st ++ [EvLoadDotenv])%list ∧
         google_api_key (self st')
           = (environ st ∪ dotenv_values W) !! "GOOGLE_API_KEY" ∧
         db_api_endpoint (self st')
           = (environ st ∪ dotenv_values W) !! "ASTRA_DB_API_ENDPOINT" ∧
         db_application_token (self st')
           = (environ st ∪ dotenv_values W) !! "ASTRA_DB_APPLICATION_TOKEN" ∧
         db_keyspace (self st')
           = (environ st ∪ dotenv_values W) !! "ASTRA_DB_KEYSPACE" ∧
         model_loader (self st') = model_loader (self st) ∧
         csv_path (self st') = csv_path (self st) ∧
         product_data (self st') = product_data (self st) ∧
         config (self st') = config (self st).
Proof.
  intros Hm. unfold _load_env_variables, load_dotenv, mbind, M_bind.
  simpl. rewrite Hm. simpl. eexists. split; [reflexivity|]. done.
Qed.

(** A name is reported missing exactly when it is required and absent. *)
Lemma elem_of_missing_in env var :
  var ∈ missing_in env ↔ var ∈ required_vars ∧ env !! var = None.
Proof. unfold missing_in. rewrite list_elem_of_filter. tauto. Qed.

Lemma missing_in_nil env :
  missing_in env = [] ↔ ∀ var, var ∈ required_vars → is_Some (env !! var).
Proof.
  split.
  - intros Hm var Hvar. destruct (env !! var) eqn:Hl; [by eexists|].
    assert (var ∈ missing_in env) as Hin by by apply elem_of_missing_in.
    rewrite Hm in Hin. by apply not_elem_of_nil in Hin.
  - intros Hall. destruct (missing_in env) as [|var l] eqn:Hm; [done|].
    assert (var ∈ missing_in env) as Hin by (rewrite Hm; left).
    apply elem_of_missing_in in Hin as [Hreq Hnone].
    destruct (Hall var Hreq) as [v Hv]. congruence.
Qed.

Lemma get_csv_path_unfold st :
  _get_csv_path W st =
    if os_path_exists W (csv_location W) then (inr (csv_location W), st)
    else (inl (FileNotFoundError [Lit "CSV file not found at: ";
                                  Interp (VStr (csv_location W))]), st).
Proof.
  unfold _get_csv_path, csv_location.
  by destruct (os_path_exists W _).
Qed.

Lemma load_csv_unfold st path :
  csv_path (self st) = Some path →
  _load_csv W st =
    match pd_read_csv W path with
    | inl e => (inl e, with_events st [EvReadCsv path])
    | inr df =>
        if bool_decide (expected_columns ⊆ list_to_set (df_columns df))
        then (inr df, with_events st [EvReadCsv path])
        else (inl columns_error, with_events st [EvReadCsv path])
    end.
Proof.
  intros Hp. unfold _load_csv, getattr, emit, lift, raise, mbind, M_bind.
  rewrite Hp. simpl.
  destruct (pd_read_csv W path) as [e|df]; [done|].
  by destruct (bool_decide _).
Qed.

(** [__init__] ends in one of the seven ways of [init_case]. *)
Lemma init_cases env :
  init_case W env (__init__ W (initial_state env)).1
                  (__init__ W (initial_state env)).2.
Proof.
  unfold __init__, print, emit, lift, setattr, load_config, mbind, M_bind.
  simpl.
  destruct (model_loader_new W) as [e|[]] eqn:Hml; simpl.
  { by apply InitModelLoader. }
  destruct (decide (missing_in (env ∪ dotenv_values W) = [])) as [Hm|Hm].
  2:{ rewrite load_env_variables_missing by done. simpl.
      by apply InitCredentials. }
  match goal with
  | |- context [_load_env_variables W ?st] =>
      destruct (load_env_variables_present st Hm)
        as (st1 & -> & Henv & Hout & Hk1 & Hk2 & Hk3 & Hk4 & Hl & Hp & Hd & Hc)
  end.
  simpl in *.
  rewrite get_csv_path_unfold.
  destruct (os_path_exists W (csv_location W)) eqn:Hex; simpl.
  2:{ by apply InitNoFile. }
  erewrite load_csv_unfold by reflexivity.
  destruct (pd_read_csv W (csv_location W)) as [e|df] eqn:Hcsv; simpl.
  { apply InitReadCsv; try done. simpl. by rewrite Hout. }
  destruct (bool_decide _) eqn:Hcols; simpl.
  2:{ apply bool_decide_eq_false_1 in Hcols.
      eapply InitColumns; try done. simpl. by rewrite Hout. }
  apply bool_decide_eq_true_1 in Hcols.
  destruct (yaml_safe_load W default_config_path) as [e|cfg] eqn:Hcfg; simpl.
  { eapply InitConfig; try done. simpl. by rewrite Hout. }
  eapply InitDone; try done; simpl.
  - by rewrite Hout.
  - by rewrite Hk1, Hk2, Hk3, Hk4, Hl.
Qed.
End Init.

(** Picks the case of [init_case] that the answers of the world leave. *)
Ltac init_inversion H :=
  inversion H; subst; try congruence;
  repeat match goal with
         | H1 : ?a = inr ?x, H2 : ?a = inr ?y |- _ =>
             assert (x = y) by congruence; subst; clear H2
         | H1 : ?a = inl ?x, H2 : ?a = inl ?y |- _ =>
             assert (x = y) by congruence; subst; clear H2
         end;
  try done.

Section InitOutcomes.
Context (W : World) (env : gmap string string).

(** An exception of [__init__] is the exception of the whole run. *)
Lemma main_init_raises e st1 :
  __init__ W (initial_state env) = (inl e, st1) →
  main W (initial_state env) = (inl e, st1).
Proof. intros H. unfold main, mbind, M_bind. by rewrite H. Qed.

Lemma main_init_returns st1 :
  __init__ W (initial_state env) = (inr tt, st1) →
  main W (initial_state env) = run_pipeline W st1.
Proof. intros H. unfold main, mbind, M_bind. by rewrite H. Qed.

Lemma init_case_events r st :
  init_case W env r st → out st `prefix_of` init_events W.
Proof.
  unfold init_events.
  destruct 1;
    repeat match goal with H : out _ = _ |- _ => rewrite H; clear H end;
    by eexists.
Qed.

Lemma init_events_no_step evs :
  evs `prefix_of` init_events W →
  Forall (λ ev, store_event ev = false) evs ∧ ∀ n, transformed_line n ∉ evs.
Proof.
  intros [k Hk]. split.
  - assert (Forall (λ ev, store_event ev = false) (init_events W)) as Hall
      by (repeat constructor).
    rewrite Hk in Hall. by apply Forall_app in Hall as [? _].
  - intros n Hin.
    assert (transformed_line n ∈ init_events W) as Hn
      by (rewrite Hk; apply elem_of_app; by left).
    unfold init_events, transformed_line, banner_line in Hn.
    repeat (apply elem_of_cons in Hn as [Hn|Hn]; [discriminate Hn|]).
    by apply not_elem_of_nil in Hn.
Qed.

Lemma init_no_file :
  model_loader_new W = inr tt →
  missing_in (env ∪ dotenv_values W) = [] →
  os_path_exists W (csv_location W) = false →
  ∃ st1,
    __init__ W (initial_state env)
    = (inl (FileNotFoundError [Lit "CSV file not found at: ";
                               Interp (VStr (csv_location W))]), st1) ∧
    out st1 = [banner_line; EvModelLoader; EvLoadDotenv].
Proof.
  intros Hml Hm Hex. pose proof (init_cases W env) as H.
  destruct (__init__ W (initial_state env)) as [r st1]. simpl in H.
  exists st1. init_inversion H.
Qed.

Lemma init_missing_credentials :
  model_loader_new W = inr tt →
  missing_in (env ∪ dotenv_values W) ≠ [] →
  ∃ st1,
    __init__ W (initial_state env)
    = (inl (missing_error (missing_in (env ∪ dotenv_values W))), st1) ∧
    out st1 = [banner_line; EvModelLoader; EvLoadDotenv].
Proof.
  intros Hml Hm. pose proof (init_cases W env) as H.
  destruct (__init__ W (initial_state env)) as [r st1]. simpl in H.
  exists st1. init_inversion H.
Qed.

Lemma init_missing_columns df :
  model_loader_new W = inr tt →
  missing_in (env ∪ dotenv_values W) = [] →
  os_path_exists W (csv_location W) = true →
  pd_read_csv W (csv_location W) = inr df →
  ¬ expected_columns ⊆ list_to_set (df_columns df) →
  ∃ st1,
    __init__ W (initial_state env) = (inl columns_error, st1) ∧
    out st1 = [banner_line; EvModelLoader; EvLoadDotenv;
               EvReadCsv (csv_location W)].
Proof.
  intros Hml Hm Hex Hcsv Hcols. pose proof (init_cases W env) as H.
  destruct (__init__ W (initial_state env)) as [r st1]. simpl in H.
  exists st1. init_inversion H.
Qed.

Lemma init_bad_config df e :
  model_loader_new W = inr tt →
  missing_in (env ∪ dotenv_values W) = [] →
  os_path_exists W (csv_location W) = true →
  pd_read_csv W (csv_location W) = inr df →
  expected_columns ⊆ list_to_set (df_columns df) →
  yaml_safe_load W default_config_path = inl e →
  ∃ st1,
    __init__ W (initial_state env) = (inl e, st1) ∧
    out st1 = init_events W.
Proof.
  intros Hml Hm Hex Hcsv Hcols Hcfg. pose proof (init_cases W env) as H.
  destruct (__init__ W (initial_state env)) as [r st1]. simpl in H.
  exists st1. init_inversion H.
Qed.

Lemma init_returns st1 :
  __init__ W (initial_state env) = (inr tt, st1) →
  ∃ df cfg,
    pd_read_csv W (csv_location W) = inr df ∧
    expected_columns ⊆ list_to_set (df_columns df) ∧
    yaml_safe_load W default_config_path = inr cfg ∧
    product_data (self st1) = Some df ∧
    config (self st1) = Some cfg ∧
    out st1 = init_events W.
Proof.
  intros Hrun. pose proof (init_cases W env) as H.
  rewrite Hrun in H. simpl in H. inversion H; subst.
  exists df, cfg.
  match goal with Hs : self st1 = _ |- _ => rewrite Hs end. done.
Qed.

End InitOutcomes.

(** C5.  When one or more of the four required variables are absent (after
    the [.env] file has been read), loading the credentials raises one
    [EnvironmentError] whose message carries the list of all the absent names,
    each once, in the order of the required list; and the same exception
    ends [__init__] once the model loader has been built. *)
Theorem missing_credentials_reported_together (W : World)
    (env : gmap string string) :
  (∃ var, var ∈ required_vars ∧ (env ∪ dotenv_values W) !! var = None) →
  (∀ st, environ st = env →
         (_load_env_variables W st).1
         = inl (missing_error (missing_in (env ∪ dotenv_values W)))) ∧
  (model_loader_new W = inr tt →
   (__init__ W (initial_state env)).1
   = inl (missing_error (missing_in (env ∪ dotenv_values W)))) ∧
  (∀ var, var ∈ missing_in (env ∪ dotenv_values W) ↔
          var ∈ required_vars ∧ (env ∪ dotenv_values W) !! var = None) ∧
  missing_in (env ∪ dotenv_values W) ≠ [] ∧
  NoDup (missing_in (env ∪ dotenv_values W)) ∧
  missing_in (env ∪ dotenv_values W) `sublist_of` required_vars.
Proof.
  intros (var & Hreq & Hnone).
  assert (missing_in (env ∪ dotenv_values W) ≠ []) as Hne.
  { intros Hnil. apply missing_in_nil with (var := var) in Hnil; [|done].
    destruct Hnil as [v Hv]. congruence. }
  split; [|split; [|split; [|split; [|split]]]].
  - intros st <-. by rewrite load_env_variables_missing.
  - intros Hml. by destruct (init_missing_credentials W env Hml Hne) as (st1 & -> & _).
  - intros var'. apply elem_of_missing_in.
  - done.
  - unfold missing_in. apply NoDup_filter.
    apply (bool_decide_unpack (NoDup required_vars)). vm_compute. exact I.
  - unfold missing_in. apply sublist_filter.
Qed.

Lemma missing_credentials_reported_together_witness :
  (__init__ Sample.no_dotenv_world (initial_state Sample.env)).1
  = inl (missing_error ["ASTRA_DB_API_ENDPOINT"; "ASTRA_DB_APPLICATION_TOKEN"]).
Proof.
  refine (proj1 (proj2 (missing_credentials_reported_together
                          Sample.no_dotenv_world Sample.env _)) eq_refl).
  exists "ASTRA_DB_API_ENDPOINT". split; [|reflexivity].
  apply list_elem_of_further, list_elem_of_here.
Defined.

(** C3, as it is stated, fails: for a file without the [review] column the
    message lists the four required columns, among them [product_title],
    which the file has. *)
Lemma load_csv_names_present_columns :
  (_load_csv Sample.no_review_world (Sample.state_of Sample.object)).1
  = inl columns_error ∧
  named_columns columns_error = Some expected_columns ∧
  expected_columns ∖ list_to_set (df_columns Sample.frame_without_review)
  = {["review"]} ∧
  expected_columns ≠ {["review"]}.
Proof.
  split; [vm_compute; reflexivity|]. split; [reflexivity|].
  split; [vm_compute; reflexivity|].
  intros H. vm_compute in H. discriminate H.
Qed.

(** C3, as the code has it.  When the file lacks one or more of the required
    columns, loading fails with a [ValueError] whose message lists the four
    required columns, the same for every missing subset; only the read of the
    file has happened. *)
Theorem load_csv_names_required_columns (W : World) (st : State)
    (path : string) (df : DataFrame) :
  csv_path (self st) = Some path →
  pd_read_csv W path = inr df →
  expected_columns ∖ list_to_set (df_columns df) ≠ ∅ →
  _load_csv W st = (inl columns_error, with_events st [EvReadCsv path]) ∧
  named_columns columns_error = Some expected_columns.
Proof.
  intros Hp Hcsv Hmiss. split; [|done].
  rewrite (load_csv_unfold W st path Hp), Hcsv.
  rewrite bool_decide_eq_false_2; [done|].
  intros Hsub. apply Hmiss. apply elem_of_equiv_empty_L.
  intros col [Hcol Hnot]%elem_of_difference. by apply Hnot, Hsub.
Qed.

Lemma load_csv_names_required_columns_witness :
  _load_csv Sample.no_review_world (Sample.state_of Sample.object)
  = (inl columns_error,
     with_events (Sample.state_of Sample.object)
       [EvReadCsv "/app/data/flipkart_product_review.csv"]).
Proof.
  refine (proj1 (load_csv_names_required_columns Sample.no_review_world
                   (Sample.state_of Sample.object)
                   "/app/data/flipkart_product_review.csv"
                   Sample.frame_without_review eq_refl eq_refl _)).
  intros H. vm_compute in H. discriminate H.
Defined.

(** C6.  An exception of [__init__], whatever it is, is the exception of the
    run, and the run has then seen nothing but events of the construction: no
    transformation, no embedding, no connection to the store, no write, no
    search.  The errors of the credentials, of the input path, of the columns
    and of the configuration file all arise in [__init__]; a missing input
    file ends the run with [FileNotFoundError] after the banner, the model
    loader and the [.env] file. *)
Theorem init_failure_stops_the_run (W : World) (env : gmap string string) :
  (∀ e st1,
     __init__ W (initial_state env) = (inl e, st1) →
     main W (initial_state env) = (inl e, st1) ∧
     out st1 `prefix_of` init_events W ∧
     Forall (λ ev, store_event ev = false) (out st1) ∧
     ∀ n, transformed_line n ∉ out st1) ∧
  (model_loader_new W = inr tt →
   missing_in (env ∪ dotenv_values W) = [] →
   os_path_exists W (csv_location W) = false →
   ∃ st1,
     main W (initial_state env)
     = (inl (FileNotFoundError [Lit "CSV file not found at: ";
                                Interp (VStr (csv_location W))]), st1) ∧
     out st1 = [banner_line; EvModelLoader; EvLoadDotenv]) ∧
  (model_loader_new W = inr tt →
   missing_in (env ∪ dotenv_values W) ≠ [] →
   ∃ st1, __init__ W (initial_state env)
          = (inl (missing_error (missing_in (env ∪ dotenv_values W))), st1)) ∧
  (∀ df,
     model_loader_new W = inr tt →
     missing_in (env ∪ dotenv_values W) = [] →
     os_path_exists W (csv_location W) = true →
     pd_read_csv W (csv_location W) = inr df →
     (¬ expected_columns ⊆ list_to_set (df_columns df) →
      ∃ st1, __init__ W (initial_state env) = (inl columns_error, st1)) ∧
     (expected_columns ⊆ list_to_set (df_columns df) →
      ∀ e, yaml_safe_load W default_config_path = inl e →
           ∃ st1, __init__ W (initial_state env) = (inl e, st1))).
Proof.
  split; [|split; [|split]].
  - intros e st1 Hinit. split; [by apply main_init_raises|].
    pose proof (init_cases W env) as Hcase. rewrite Hinit in Hcase.
    apply (init_case_events W env) in Hcase. simpl in Hcase.
    split; [done|]. by apply (init_events_no_step W).
  - intros Hml Hm Hex.
    destruct (init_no_file W env Hml Hm Hex) as (st1 & Hinit & Hout).
    exists st1. split; [by apply main_init_raises|done].
  - intros Hml Hm.
    destruct (init_missing_credentials W env Hml Hm) as (st1 & Hinit & _).
    by exists st1.
  - intros df Hml Hm Hex Hcsv. split.
    + intros Hcols.
      destruct (init_missing_columns W env df Hml Hm Hex Hcsv Hcols)
        as (st1 & Hinit & _).
      by exists st1.
    + intros Hcols e Hcfg.
      destruct (init_bad_config W env df e Hml Hm Hex Hcsv Hcols Hcfg)
        as (st1 & Hinit & _).
      by exists st1.
Qed.

Lemma init_failure_stops_the_run_witness :
  ∃ st1,
    main Sample.no_file_world (initial_state Sample.env)
    = (inl (FileNotFoundError
              [Lit "CSV file not found at: ";
               Interp (VStr "/app/data/flipkart_product_review.csv")]), st1) ∧
    out st1 = [banner_line; EvModelLoader; EvLoadDotenv].
Proof.
  exact (proj1 (proj2 (init_failure_stops_the_run Sample.no_file_world Sample.env))
           eq_refl eq_refl eq_refl).
Defined.

(** C10.  [transform_data], [store_in_vector_db] and [run_pipeline] leave
    [product_data] as they find it (they leave the whole object as they find
    it); and after a construction that returns, [product_data] is the frame
    that [read_csv] gave for the input file, before the run and after it. *)
Theorem product_data_is_left_unchanged (W : World) (st : State) :
  self (transform_data st).2 = self st ∧
  (∀ docs, self (store_in_vector_db W docs st).2 = self st) ∧
  self (run_pipeline W st).2 = self st ∧
  ∀ env st1,
    __init__ W (initial_state env) = (inr tt, st1) →
    ∃ df, pd_read_csv W (csv_location W) = inr df ∧
          product_data (self st1) = Some df ∧
          product_data (self (transform_data st1).2) = Some df ∧
          product_data (self (main W (initial_state env)).2) = Some df.
Proof.
  split; [apply read_only_transform_data|].
  split; [intros docs; apply read_only_store_in_vector_db|].
  split; [apply read_only_run_pipeline|].
  intros env st1 Hinit.
  destruct (init_returns W env st1 Hinit) as (df & cfg & Hcsv & _ & _ & Hd & _).
  exists df. split; [done|]. split; [done|].
  split.
  - by rewrite (proj1 (read_only_transform_data st1)).
  - rewrite (main_init_returns W env st1 Hinit).
    by rewrite (proj1 (read_only_run_pipeline W st1)).
Qed.

Lemma product_data_is_left_unchanged_witness :
  ∃ df, pd_read_csv Sample.good_world (csv_location Sample.good_world) = inr df ∧
        product_data (self (__init__ Sample.good_world (initial_state Sample.env)).2)
        = Some df ∧
        product_data
          (self (transform_data
                   (__init__ Sample.good_world (initial_state Sample.env)).2).2)
        = Some df ∧
        product_data (self (main Sample.good_world (initial_state Sample.env)).2)
        = Some df.
Proof.
  refine (proj2 (proj2 (proj2 (product_data_is_left_unchanged Sample.good_world
                                 (initial_state Sample.env))))
            Sample.env _ _).
  vm_compute. reflexivity.
Defined.

(** ** The run *)

Section Run.
Context (W : World).

Lemma for_do_print_results (results : list Document) st :
  for_do (λ res,
    print [Lit "Content: "; Interp (VCell (page_content res));
           Lit "\nMetadata: "; Interp (VDict (metadata res)); Lit "\n"])
    results st
  = (inr tt, with_events st (result_line <$> results)).
Proof.
  revert st. induction results as [|res results IH]; intros st; simpl.
  - unfold mret, M_ret, with_events. rewrite app_nil_r. by destruct st.
  - unfold mbind, M_bind, print, emit. simpl. rewrite IH.
    unfold with_events. simpl. by rewrite <- app_assoc.
Qed.

(** What [store_in_vector_db] does on an object that is ready: whatever
    the store answers to [add_documents] decides the outcome. *)
Lemma store_in_vector_db_ready docs st vstore :
  store_ready W st vstore →
  store_in_vector_db W docs st =
    match astra_add_documents W docs with
    | inl e =>
        (inl e, with_events st [EvLoadEmbeddings; EvStoreConnect vstore;
                                EvAddDocuments docs])
    | inr ids =>
        (inr (vstore, ids),
         with_events st [EvLoadEmbeddings; EvStoreConnect vstore;
                         EvAddDocuments docs; inserted_line (length ids)])
    end.
Proof.
  intros (cfg & astra_db & ml & Hcfg & Ha & Hc & Hml & Hemb & Hep & Htok & Hns & Hnew).
  unfold store_in_vector_db, getattr, lift, emit, print, mbind, M_bind,
    mret, M_ret.
  destruct vstore as [c ep tok ns]. simpl in *.
  repeat first
    [ progress simpl | rewrite Hcfg | rewrite Ha | rewrite Hc | rewrite Hml
    | rewrite Hemb | rewrite Hep | rewrite Htok | rewrite Hns | rewrite Hnew ].
  unfold with_events, inserted_line. simpl.
  destruct (astra_add_documents W docs) as [e|ids]; simpl;
    by rewrite <- !app_assoc.
Qed.

(** A malformed configuration stops [store_in_vector_db] before anything
    reaches the embedding model or the store. *)
Lemma store_in_vector_db_bad_config docs st cfg e :
  config (self st) = Some cfg →
  match yaml_getitem cfg "astra_db" with
  | inl e' => e' = e
  | inr astra_db => yaml_getitem astra_db "collection_name" = inl e
  end →
  store_in_vector_db W docs st = (inl e, st).
Proof.
  intros Hcfg He.
  unfold store_in_vector_db, getattr, lift, mbind, M_bind.
  rewrite Hcfg.
  destruct (yaml_getitem cfg "astra_db") as [e'|astra_db]; [by subst|].
  by rewrite He.
Qed.

(** The run on an object that is ready and holds valid rows, up to the
    answer of the store. *)
Lemma run_pipeline_ready st df vstore docs :
  product_data (self st) = Some df →
  transform_rows (df_rows df) = inr docs →
  store_ready W st vstore →
  run_pipeline W st =
    match astra_add_documents W docs with
    | inl e =>
        (inl e, with_events st [transformed_line (length docs);
                                EvLoadEmbeddings; EvStoreConnect vstore;
                                EvAddDocuments docs])
    | inr ids =>
        match astra_similarity_search W docs sample_query with
        | inl e =>
            (inl e, with_events st [transformed_line (length docs);
                                    EvLoadEmbeddings; EvStoreConnect vstore;
                                    EvAddDocuments docs;
                                    inserted_line (length ids);
                                    EvSimilaritySearch sample_query])
        | inr results =>
            (inr tt, with_events st ([transformed_line (length docs);
                                      EvLoadEmbeddings; EvStoreConnect vstore;
                                      EvAddDocuments docs;
                                      inserted_line (length ids);
                                      EvSimilaritySearch sample_query;
                                      sample_header]
                                     ++ (result_line <$> results)))
        end
    end.
Proof.
  intros Hdf Hrows Hready.
  unfold run_pipeline, mbind, M_bind.
  rewrite transform_data_unfold, Hdf, Hrows.
  rewrite (store_in_vector_db_ready docs _ vstore) by exact Hready.
  destruct (astra_add_documents W docs) as [e|ids].
  { unfold with_events. simpl. by rewrite <- app_assoc. }
  unfold emit, lift, print. simpl.
  destruct (astra_similarity_search W docs sample_query) as [e|results].
  { unfold with_events. simpl. by rewrite <- !app_assoc. }
  simpl.
  change (for_do ?f ?l) with (for_do f l).
  rewrite for_do_print_results.
  unfold with_events, sample_header. simpl. by rewrite <- !app_assoc.
Qed.

End Run.

(** C2, as it is stated, fails: the store answers with one identifier for
    three documents, and the run prints that count, goes on to the search and
    returns normally. *)
Lemma count_mismatch_goes_unnoticed :
  astra_add_documents Sample.short_world Sample.documents = inr ["id-0"] ∧
  length Sample.documents = 3 ∧
  (main Sample.short_world (initial_state Sample.env)).1 = inr tt ∧
  out (main Sample.short_world (initial_state Sample.env)).2
  = (init_events Sample.short_world
     ++ [transformed_line 3; EvLoadEmbeddings; EvStoreConnect Sample.vstore;
         EvAddDocuments Sample.documents; inserted_line 1;
         EvSimilaritySearch sample_query; sample_header])%list.
Proof. repeat split; vm_compute; reflexivity. Qed.

(** C2, as the code has it.  A run over N rows that have the four labels
    and a string for a review, on an object that is ready, submits N
    documents in one call.  If the store raises, the run ends with that
    exception and prints no count.  If the store returns identifiers, the run
    prints how many it returned, which is N when the store returns one per
    document, and goes on to the search, whose outcome is the outcome of the
    run; the count is compared with nothing. *)
Theorem run_reports_returned_count (W : World) (st : State) (df : DataFrame)
    (vstore : VStore) :
  product_data (self st) = Some df →
  Forall (λ row, valid_row row = true ∧ string_review row = true)
    (df_rows df) →
  store_ready W st vstore →
  ∃ docs,
    transform_rows (df_rows df) = inr docs ∧
    length docs = length (df_rows df) ∧
    run_pipeline W st =
      match astra_add_documents W docs with
      | inl e =>
          (inl e,
           with_events st
             [transformed_line (length (df_rows df)); EvLoadEmbeddings;
              EvStoreConnect vstore; EvAddDocuments docs])
      | inr ids =>
          match astra_similarity_search W docs sample_query with
          | inl e =>
              (inl e,
               with_events st
                 [transformed_line (length (df_rows df)); EvLoadEmbeddings;
                  EvStoreConnect vstore; EvAddDocuments docs;
                  inserted_line (length ids);
                  EvSimilaritySearch sample_query])
          | inr results =>
              (inr tt,
               with_events st
                 ([transformed_line (length (df_rows df)); EvLoadEmbeddings;
                   EvStoreConnect vstore; EvAddDocuments docs;
                   inserted_line (length ids);
                   EvSimilaritySearch sample_query; sample_header]
                  ++ (result_line <$> results)))
          end
      end.
Proof.
  intros Hdf Hvalid Hready.
  destruct (transform_rows_valid _ Hvalid) as (docs & Hrows & Hall).
  assert (length docs = length (df_rows df)) as Hlen
    by (symmetry; by eapply Forall2_length).
  exists docs. split; [done|]. split; [done|].
  rewrite (run_pipeline_ready W st df vstore docs Hdf Hrows Hready).
  by rewrite Hlen.
Qed.

Lemma sample_store_ready (W : World) :
  model_load_embeddings W = inr tt →
  astra_new W Sample.vstore = inr tt →
  store_ready W (Sample.state_of Sample.object) Sample.vstore.
Proof.
  intros Hemb Hnew.
  exists Sample.settings, (YMap [("collection_name", YStr "reviews")]), tt.
  repeat split; assumption || reflexivity.
Defined.

Lemma run_reports_returned_count_witness :
  ∃ docs,
    transform_rows Sample.rows = inr docs ∧
    length docs = 3 ∧
    run_pipeline Sample.short_world (Sample.state_of Sample.object)
    = (inr tt,
       with_events (Sample.state_of Sample.object)
         [transformed_line 3; EvLoadEmbeddings;
          EvStoreConnect Sample.vstore; EvAddDocuments docs;
          inserted_line 1; EvSimilaritySearch sample_query; sample_header]).
Proof.
  refine (run_reports_returned_count Sample.short_world
            (Sample.state_of Sample.object) Sample.frame Sample.vstore
            eq_refl _ (sample_store_ready Sample.short_world eq_refl eq_refl)).
  repeat constructor.
Defined.

(** C4, as it is stated, fails: the write of three documents succeeds, the
    search raises, and the run ends with the exception of the search. *)
Lemma search_failure_is_fatal :
  astra_add_documents Sample.search_fails_world Sample.documents
  = inr ["id-0"; "id-1"; "id-2"] ∧
  (main Sample.search_fails_world (initial_state Sample.env)).1
  = inl (Foreign "DataAPITimeoutException") ∧
  out (main Sample.search_fails_world (initial_state Sample.env)).2
  = (init_events Sample.search_fails_world
     ++ [transformed_line 3; EvLoadEmbeddings; EvStoreConnect Sample.vstore;
         EvAddDocuments Sample.documents; inserted_line 3;
         EvSimilaritySearch sample_query])%list.
Proof. repeat split; vm_compute; reflexivity. Qed.

(** C4, as the code has it.  When the write succeeds and the search that
    follows it raises, [run_pipeline] ends with the exception of the search.
    The write has been made and its count printed before; nothing undoes it,
    and no sample result is printed. *)
Theorem search_failure_ends_the_run (W : World) (st : State) (df : DataFrame)
    (vstore : VStore) (docs : list Document) (ids : list string) (e : exn) :
  product_data (self st) = Some df →
  transform_rows (df_rows df) = inr docs →
  store_ready W st vstore →
  astra_add_documents W docs = inr ids →
  astra_similarity_search W docs sample_query = inl e →
  run_pipeline W st
  = (inl e,
     with_events st
       [transformed_line (length docs); EvLoadEmbeddings;
        EvStoreConnect vstore; EvAddDocuments docs;
        inserted_line (length ids); EvSimilaritySearch sample_query]).
Proof.
  intros Hdf Hrows Hready Hadd Hsearch.
  rewrite (run_pipeline_ready W st df vstore docs Hdf Hrows Hready).
  by rewrite Hadd, Hsearch.
Qed.

Lemma search_failure_ends_the_run_witness :
  run_pipeline Sample.search_fails_world (Sample.state_of Sample.object)
  = (inl (Foreign "DataAPITimeoutException"),
     with_events (Sample.state_of Sample.object)
       [transformed_line 3; EvLoadEmbeddings;
        EvStoreConnect Sample.vstore; EvAddDocuments Sample.documents;
        inserted_line 3; EvSimilaritySearch sample_query]).
Proof.
  exact (search_failure_ends_the_run Sample.search_fails_world
           (Sample.state_of Sample.object) Sample.frame Sample.vstore
           Sample.documents ["id-0"; "id-1"; "id-2"]
           (Foreign "DataAPITimeoutException")
           eq_refl eq_refl
           (sample_store_ready Sample.search_fails_world eq_refl eq_refl)
           eq_refl eq_refl).
Defined.


(** * Further properties of the code *)

(** ** Rows that cannot be transformed *)

(** The first loop raises at the first row that lacks a label. *)
Lemma first_loop_inl (rows : list Row) (e : exn) :
  for_each product_entry rows = inl e →
  ∃ row label, row ∈ rows ∧ first_missing row = Some label ∧
               e = KeyError label.
Proof.
  intros He. apply for_each_inl in He as (l1 & row & l2 & -> & _ & Hrow).
  apply product_entry_inl in Hrow as (label & Hlabel & ->).
  exists row, label. split; [|done]. apply elem_of_app. right. left.
Qed.

Lemma first_loop_valid (rows : list Row) :
  Forall (λ row, valid_row row = true) rows ↔
  ∃ product_list, for_each product_entry rows = inr product_list.
Proof.
  split.
  - intros Hv. apply for_each_total. eapply Forall_impl; [exact Hv|].
    intros row. apply product_entry_valid.
  - intros [pl Hpl]. apply for_each_inr in Hpl.
    apply Forall_forall. intros row Hrow.
    apply list_elem_of_lookup in Hrow as [i Hi].
    destruct (Forall2_lookup_l _ _ _ _ _ Hpl Hi) as (entry & _ & Hentry).
    apply first_missing_valid.
    pose proof (product_entry_first_missing row) as H.
    destruct (first_missing row); [congruence|done].
Qed.

(** On a row that has the four labels, only the constructor can raise. *)
Lemma row_document_refused (row : Row) :
  valid_row row = true →
  match refused_review row with
  | Some c => row !! "review" = Some c ∧ (∀ s, c ≠ CStr s) ∧
              row_document row = inl (ValidationError c)
  | None => string_review row = true ∧ ∃ d, row_document row = inr d
  end.
Proof.
  intros Hv.
  destruct (valid_row_lookup row "product_title" Hv) as [name Hn];
    [unfold expected_columns; set_solver|].
  destruct (valid_row_lookup row "rating" Hv) as [rating Hr];
    [unfold expected_columns; set_solver|].
  destruct (valid_row_lookup row "summary" Hv) as [summary Hs];
    [unfold expected_columns; set_solver|].
  destruct (valid_row_lookup row "review" Hv) as [review Hw];
    [unfold expected_columns; set_solver|].
  rewrite row_document_reads. unfold refused_review, string_review.
  rewrite Hn, Hr, Hs, Hw.
  destruct review as [s| |]; simpl; by eauto.
Qed.

Lemma first_refused_cons (row : Row) (rows : list Row) :
  first_refused (row :: rows) =
    match refused_review row with
    | Some c => Some c
    | None => first_refused rows
    end.
Proof. unfold first_refused. simpl. by destruct (refused_review row). Qed.

(** The second loop raises at the first review that the constructor
    refuses. *)
Lemma second_loop_refused (rows : list Row) :
  Forall (λ row, valid_row row = true) rows →
  match first_refused rows with
  | Some c => for_each row_document rows = inl (ValidationError c)
  | None => ∃ docs, for_each row_document rows = inr docs
  end.
Proof.
  induction 1 as [|row rows Hrow _ IH]; [by eexists|].
  rewrite first_refused_cons. cbn [for_each].
  pose proof (row_document_refused row Hrow) as H.
  destruct (refused_review row) as [c|].
  - destruct H as (_ & _ & ->). done.
  - destruct H as (_ & d & ->).
    destruct (first_refused rows) as [c|].
    + by rewrite IH.
    + destruct IH as [docs ->]. by eexists.
Qed.

Lemma first_refused_elem (rows : list Row) (c : cell) :
  first_refused rows = Some c →
  ∃ row, row ∈ rows ∧ row !! "review" = Some c ∧ ∀ s, c ≠ CStr s.
Proof.
  unfold first_refused. intros H.
  apply head_Some_elem_of, list_elem_of_omap in H as (row & Hrow & Hc).
  exists row. split; [done|]. unfold refused_review in Hc.
  destruct (row !! "review") as [[s| |]|]; try done;
    injection Hc as <-; by split.
Qed.

Lemma first_refused_none (rows : list Row) :
  Forall (λ row, valid_row row = true) rows →
  first_refused rows = None →
  Forall (λ row, valid_row row = true ∧ string_review row = true) rows.
Proof.
  induction 1 as [|row rows Hrow _ IH]; [constructor|].
  rewrite first_refused_cons.
  pose proof (row_document_refused row Hrow) as H.
  destruct (refused_review row) as [c|]; [done|].
  intros Hnone. constructor; [|by apply IH]. by destruct H.
Qed.

(** X1.  When some row lacks a required label, [transform_data] raises the
    [KeyError] of the first label that the first such row lacks, in the order
    of the reads; it returns no document for the rows before it and writes
    nothing. *)
Theorem transform_data_stops_at_first_bad_row (st : State) (df : DataFrame)
    (good rest : list Row) (bad : Row) (label : string) :
  product_data (self st) = Some df →
  df_rows df = (good ++ bad :: rest)%list →
  Forall (λ row, valid_row row = true) good →
  first_missing bad = Some label →
  transform_data st = (inl (KeyError label), st).
Proof.
  intros Hdf Hrows Hgood Hbad.
  rewrite transform_data_unfold, Hdf, transform_rows_two_loops, Hrows,
    for_each_app.
  apply first_loop_valid in Hgood as [product_list ->]. simpl.
  pose proof (product_entry_first_missing bad) as H. rewrite Hbad in H.
  by rewrite H.
Qed.

Lemma transform_data_stops_at_first_bad_row_witness :
  transform_data
    (Sample.state_of
       (Sample.with_data
          {| df_columns := ["product_title"; "rating"; "summary"];
             df_rows := (Sample.rows
                         ++ df_rows Sample.frame_without_review)%list |}))
  = (inl (KeyError "review"),
     Sample.state_of
       (Sample.with_data
          {| df_columns := ["product_title"; "rating"; "summary"];
             df_rows := (Sample.rows
                         ++ df_rows Sample.frame_without_review)%list |})).
Proof.
  apply (transform_data_stops_at_first_bad_row _
           {| df_columns := ["product_title"; "rating"; "summary"];
              df_rows := (Sample.rows
                          ++ df_rows Sample.frame_without_review)%list |}
           Sample.rows []
           (<["product_title" := CStr "Headphone A"]>
            (<["rating" := CInt 4]> {["summary" := CStr "Good bass"]}))
           "review").
  - reflexivity.
  - reflexivity.
  - repeat constructor.
  - vm_compute. reflexivity.
Defined.

(** The two loops raise exceptions of different kinds. *)
Lemma first_loop_key_error (rows : list Row) (e : exn) :
  for_each product_entry rows = inl e → is_key_error e = true.
Proof. intros He. by apply first_loop_inl in He as (? & ? & _ & _ & ->). Qed.

Lemma second_loop_not_key_error (rows : list Row) (e : exn) :
  Forall (λ row, valid_row row = true) rows →
  for_each row_document rows = inl e → is_key_error e = false.
Proof.
  intros Hv He. pose proof (second_loop_refused rows Hv) as H.
  destruct (first_refused rows) as [c|].
  - rewrite H in He. by injection He as <-.
  - destruct H as [docs Hdocs]. congruence.
Qed.

(** X2.  The documents of two lists of rows one after the other are the
    documents of the first followed by those of the second.  When one of
    the two raises, the whole raises the same; when both do, a [KeyError]
    comes before an exception of the constructor, since the first loop goes
    through all the rows before the second starts, and otherwise the
    exception of the first list is the one. *)
Theorem transform_rows_app (rows1 rows2 : list Row) :
  transform_rows (rows1 ++ rows2)%list =
    match transform_rows rows1, transform_rows rows2 with
    | inr docs1, inr docs2 => inr (docs1 ++ docs2)%list
    | inl e, inr _ | inr _, inl e => inl e
    | inl e1, inl e2 =>
        inl (if is_key_error e1 then e1
             else if is_key_error e2 then e2 else e1)
    end.
Proof.
  rewrite !transform_rows_two_loops, !for_each_app.
  destruct (for_each product_entry rows1) as [e1|pl1] eqn:H1.
  { rewrite (first_loop_key_error rows1 e1 H1).
    by destruct (for_each product_entry rows2),
                (for_each row_document rows2). }
  assert (Forall (λ row, valid_row row = true) rows1) as Hv1
    by (apply first_loop_valid; eauto).
  destruct (for_each product_entry rows2) as [e2|pl2] eqn:H2.
  { rewrite (first_loop_key_error rows2 e2 H2).
    destruct (for_each row_document rows1) as [e1|docs1] eqn:Hd1; [|done].
    by rewrite (second_loop_not_key_error rows1 e1 Hv1 Hd1). }
  assert (Forall (λ row, valid_row row = true) rows2) as Hv2
    by (apply first_loop_valid; eauto).
  destruct (for_each row_document rows1) as [e1|docs1] eqn:Hd1.
  - rewrite (second_loop_not_key_error rows1 e1 Hv1 Hd1).
    destruct (for_each row_document rows2) as [e2|docs2] eqn:Hd2; [|done].
    by rewrite (second_loop_not_key_error rows2 e2 Hv2 Hd2).
  - by destruct (for_each row_document rows2).
Qed.

Lemma transform_rows_app_witness :
  transform_rows
    ([<["product_title" := CStr "Headphone B"]>
      (<["rating" := CInt 2]>
      (<["summary" := CStr "Meh"]> {["review" := CNaN]}))]
     ++ df_rows Sample.frame_without_review)%list
  = inl (KeyError "review") ∧
  transform_rows
    [<["product_title" := CStr "Headphone B"]>
     (<["rating" := CInt 2]>
     (<["summary" := CStr "Meh"]> {["review" := CNaN]}))]
  = inl (ValidationError CNaN).
Proof.
  split; [|vm_compute; reflexivity].
  refine (eq_trans (transform_rows_app _ _) _).
  vm_compute. reflexivity.
Defined.

(** X3.  The only exceptions of [transform_data] are the [AttributeError] of
    an object without [product_data], the [KeyError] of one of the four
    labels a row is read at, and, when every row has the four labels, the
    [ValidationError] of a review that is not a string; in each case the
    state is as it was. *)
Theorem transform_data_raises_only (st st' : State) (e : exn) :
  transform_data st = (inl e, st') →
  st' = st ∧
  ((e = AttributeError "product_data" ∧ product_data (self st) = None) ∨
   (∃ df row label,
      product_data (self st) = Some df ∧ row ∈ df_rows df ∧
      label ∈ required_labels ∧ row !! label = None ∧ e = KeyError label) ∨
   (∃ df row c,
      product_data (self st) = Some df ∧
      Forall (λ r, valid_row r = true) (df_rows df) ∧
      row ∈ df_rows df ∧ row !! "review" = Some c ∧ (∀ s, c ≠ CStr s) ∧
      e = ValidationError c)).
Proof.
  rewrite transform_data_unfold.
  destruct (product_data (self st)) as [df|] eqn:Hdf.
  2:{ intros [= <- <-]. split; [done|]. by left. }
  destruct (transform_rows (df_rows df)) as [e'|docs] eqn:Hrows; [|done].
  intros [= -> <-]. split; [done|]. right.
  rewrite transform_rows_two_loops in Hrows.
  destruct (for_each product_entry (df_rows df)) as [e'|pl] eqn:Hfirst.
  - left. injection Hrows as ->.
    apply first_loop_inl in Hfirst as (row & label & Hrow & Hlabel & ->).
    apply first_missing_required in Hlabel as [Hreq Hnone].
    by exists df, row, label.
  - right.
    assert (Forall (λ r, valid_row r = true) (df_rows df)) as Hv
      by (apply first_loop_valid; eauto).
    pose proof (second_loop_refused (df_rows df) Hv) as H.
    destruct (first_refused (df_rows df)) as [c|] eqn:Hc.
    + rewrite H in Hrows. injection Hrows as <-.
      apply first_refused_elem in Hc as (row & Hrow & Hreview & Hs).
      by exists df, row, c.
    + destruct H as [docs Hdocs]. congruence.
Qed.

Lemma transform_data_raises_only_witness :
  ∃ df row c,
    product_data (Sample.with_data Sample.frame_with_empty_cell) = Some df ∧
    Forall (λ r, valid_row r = true) (df_rows df) ∧
    row ∈ df_rows df ∧ row !! "review" = Some c ∧ (∀ s, c ≠ CStr s) ∧
    ValidationError CNaN = ValidationError c.
Proof.
  destruct (transform_data_raises_only
              (Sample.state_of (Sample.with_data Sample.frame_with_empty_cell))
              (Sample.state_of (Sample.with_data Sample.frame_with_empty_cell))
              (ValidationError CNaN))
    as [_ [[He _]|[(df & row & label & _ & _ & _ & _ & He)|H]]].
  - vm_compute. reflexivity.
  - discriminate He.
  - discriminate He.
  - exact H.
Defined.

(** X4.  [transform_data] returns normally exactly when the object holds a
    frame and every row of the frame has the four required labels and a
    string for a review. *)
Theorem transform_data_returns_iff (st : State) :
  (∃ docs st', transform_data st = (inr docs, st')) ↔
  ∃ df, product_data (self st) = Some df ∧
        Forall (λ row, valid_row row = true ∧ string_review row = true)
          (df_rows df).
Proof.
  rewrite transform_data_unfold. split.
  - intros (docs & st' & H).
    destruct (product_data (self st)) as [df|]; [|done].
    exists df. split; [done|].
    destruct (transform_rows (df_rows df)) as [e|docs'] eqn:Hrows; [done|].
    apply transform_rows_inr in Hrows.
    apply Forall_forall. intros row Hrow.
    apply list_elem_of_lookup in Hrow as [i Hi].
    destruct (Forall2_lookup_l _ _ _ _ _ Hrows Hi) as (d & _ & Hd).
    by apply row_document_inr in Hd.
  - intros (df & -> & Hvalid).
    destruct (transform_rows_valid _ Hvalid) as (docs & -> & _).
    by eexists _, _.
Qed.

Lemma transform_data_returns_iff_witness :
  ∃ docs st', transform_data (Sample.state_of Sample.object) = (inr docs, st').
Proof.
  apply (proj2 (transform_data_returns_iff (Sample.state_of Sample.object))).
  exists Sample.frame. split; [reflexivity|]. repeat constructor.
Defined.

(** ** Where the input file is looked for *)

Lemma string_app_cons (c : ascii) (s t : string) :
  String c s +:+ t = String c (s +:+ t).
Proof. reflexivity. Qed.

Lemma string_app_assoc (s1 s2 s3 : string) :
  (s1 +:+ s2) +:+ s3 = s1 +:+ (s2 +:+ s3).
Proof.
  induction s1 as [|c s1 IH]; [done|].
  by rewrite !string_app_cons, IH.
Qed.

Lemma string_app_nonempty (s t : string) : t ≠ "" → s +:+ t ≠ "".
Proof. by destruct s. Qed.

Lemma endswith_sep_app (s t : string) :
  t ≠ "" → endswith_sep (s +:+ t) = endswith_sep t.
Proof.
  intros Ht. induction s as [|c s IH]; [done|].
  pose proof (string_app_nonempty s t Ht) as Hne.
  rewrite string_app_cons. simpl. by destruct (s +:+ t).
Qed.

Section Location.
Context (W : World).

(** X5.  The input file is looked for under the working directory of the
    process, at [data/flipkart_product_review.csv]: the separator between
    the directory and [data] is added unless the directory is empty or ends
    in one.  A path that [_get_csv_path] returns is that path, it exists,
    and the call has changed nothing. *)
Theorem get_csv_path_under_cwd (st st' : State) (p : string) :
  csv_location W
  = os_getcwd W
    +:+ (if bool_decide (os_getcwd W = "") || endswith_sep (os_getcwd W)
         then "" else "/")
    +:+ "data/flipkart_product_review.csv" ∧
  (_get_csv_path W st = (inr p, st') →
   p = csv_location W ∧ os_path_exists W p = true ∧ st' = st).
Proof.
  split.
  - unfold csv_location, os_path_join, csv_file_name.
    set (cwd := os_getcwd W).
    cbn [foldl startswith_sep].
    rewrite (bool_decide_eq_false_2 ("f"%char = "/"%char)) by done.
    rewrite !(bool_decide_eq_false_2 ("d"%char = "/"%char)) by done.
    destruct (bool_decide (cwd = "") || endswith_sep cwd).
    + rewrite bool_decide_eq_false_2 by (by apply string_app_nonempty).
      rewrite endswith_sep_app by done.
      change (endswith_sep "data") with false. cbn [orb].
      by rewrite string_app_assoc.
    + rewrite bool_decide_eq_false_2
        by (apply string_app_nonempty, string_app_nonempty; done).
      rewrite !endswith_sep_app by done.
      change (endswith_sep "data") with false. cbn [orb].
      by rewrite !string_app_assoc.
  - rewrite get_csv_path_unfold.
    destruct (os_path_exists W (csv_location W)) eqn:Hex; [|done].
    by intros [= <- <-].
Qed.

End Location.

Lemma get_csv_path_under_cwd_witness :
  csv_location Sample.good_world = "/app/data/flipkart_product_review.csv" ∧
  os_path_exists Sample.good_world (csv_location Sample.good_world) = true.
Proof.
  pose proof (get_csv_path_under_cwd Sample.good_world
                (Sample.state_of new_object) (Sample.state_of new_object)
                (csv_location Sample.good_world)) as [Hloc Hret].
  split; [exact Hloc|]. exact (proj1 (proj2 (Hret eq_refl))).
Defined.


(** ** The credentials *)

(** X6.  [_load_env_variables] returns normally exactly when each of the
    four required variables is set in the environment of the process or in
    the [.env] file. *)
Theorem load_env_variables_returns_iff (W : World) (st : State) :
  (∃ st', _load_env_variables W st = (inr tt, st')) ↔
  ∀ var, var ∈ required_vars →
         var ∈ dom (environ st) ∨ var ∈ dom (dotenv_values W).
Proof.
  assert (missing_in (environ st ∪ dotenv_values W) = [] ↔
          ∀ var, var ∈ required_vars →
                 var ∈ dom (environ st) ∨ var ∈ dom (dotenv_values W)) as Hm.
  { rewrite missing_in_nil. apply forall_proper. intros var.
    by rewrite <- elem_of_dom, dom_union, elem_of_union. }
  rewrite <- Hm. split.
  - intros (st' & Hrun).
    destruct (decide (missing_in (environ st ∪ dotenv_values W) = []))
      as [Hnil|Hne]; [done|].
    rewrite load_env_variables_missing in Hrun by done. done.
  - intros Hnil.
    destruct (load_env_variables_present W st Hnil) as (st' & Hrun & _).
    by exists st'.
Qed.

Lemma load_env_variables_returns_iff_witness :
  ∃ st', _load_env_variables Sample.good_world (initial_state Sample.env)
         = (inr tt, st').
Proof.
  apply (proj2 (load_env_variables_returns_iff Sample.good_world
                  (initial_state Sample.env))).
  intros var Hvar. unfold required_vars in Hvar.
  repeat (apply elem_of_cons in Hvar as [->|Hvar]);
    [left|right|right|left|by apply not_elem_of_nil in Hvar];
    apply (bool_decide_unpack _); vm_compute; exact I.
Defined.

Lemma required_vars_elem (var : string) :
  var ∈ required_vars ↔
  var = "GOOGLE_API_KEY" ∨ var = "ASTRA_DB_API_ENDPOINT" ∨
  var = "ASTRA_DB_APPLICATION_TOKEN" ∨ var = "ASTRA_DB_KEYSPACE".
Proof.
  unfold required_vars. rewrite !elem_of_cons, elem_of_nil. tauto.
Qed.

(** X7.  When [_load_env_variables] returns, the four credentials of the
    object are set, none is [None], each is the value the environment holds
    for its variable after the call; the variables the process had keep
    their values, and the other attributes of the object are as before. *)
Theorem load_env_variables_sets_credentials (W : World) (st st' : State) :
  _load_env_variables W st = (inr tt, st') →
  ∃ key endpoint token keyspace,
    google_api_key (self st') = Some key ∧
    db_api_endpoint (self st') = Some endpoint ∧
    db_application_token (self st') = Some token ∧
    db_keyspace (self st') = Some keyspace ∧
    environ st' !! "GOOGLE_API_KEY" = Some key ∧
    environ st' !! "ASTRA_DB_API_ENDPOINT" = Some endpoint ∧
    environ st' !! "ASTRA_DB_APPLICATION_TOKEN" = Some token ∧
    environ st' !! "ASTRA_DB_KEYSPACE" = Some keyspace ∧
    environ st ⊆ environ st' ∧
    model_loader (self st') = model_loader (self st) ∧
    csv_path (self st') = csv_path (self st) ∧
    product_data (self st') = product_data (self st) ∧
    config (self st') = config (self st).
Proof.
  intros Hrun.
  destruct (decide (missing_in (environ st ∪ dotenv_values W) = []))
    as [Hnil|Hne].
  2:{ by rewrite load_env_variables_missing in Hrun by done. }
  destruct (load_env_variables_present W st Hnil)
    as (st1 & Hrun1 & Henv & _ & Hk & Hep & Htok & Hks & Hml & Hp & Hd & Hc).
  rewrite Hrun in Hrun1. injection Hrun1 as <-.
  pose proof (proj1 (missing_in_nil _) Hnil) as Hall.
  destruct (Hall "GOOGLE_API_KEY") as [key Hkey];
    [apply required_vars_elem; tauto|].
  destruct (Hall "ASTRA_DB_API_ENDPOINT") as [endpoint Hendpoint];
    [apply required_vars_elem; tauto|].
  destruct (Hall "ASTRA_DB_APPLICATION_TOKEN") as [token Htoken];
    [apply required_vars_elem; tauto|].
  destruct (Hall "ASTRA_DB_KEYSPACE") as [keyspace Hkeyspace];
    [apply required_vars_elem; tauto|].
  exists key, endpoint, token, keyspace.
  rewrite Hk, Hep, Htok, Hks, Henv.
  repeat split; try done. apply map_union_subseteq_l.
Qed.

Lemma load_env_variables_sets_credentials_witness :
  db_keyspace Sample.object
  = (Sample.env ∪ Sample.dotenv) !! "ASTRA_DB_KEYSPACE".
Proof.
  destruct (load_env_variables_sets_credentials Sample.good_world
              {| self := Sample.with_data Sample.frame;
                 environ := Sample.env; out := [] |}
              {| self := Sample.object;
                 environ := Sample.env ∪ Sample.dotenv;
                 out := [EvLoadDotenv] |})
    as (key & endpoint & token & keyspace
        & _ & _ & _ & Hattr & _ & _ & _ & Hvar & _).
  - vm_compute. reflexivity.
  - exact (eq_trans Hattr (eq_sym Hvar)).
Defined.

(** ** The constructor *)

(** X8.  [DataIngestion()] returns normally exactly when the model loader
    is built, the four variables are set, the input file exists, it is read
    into a frame that has the four required columns, and the configuration
    file is loaded. *)
Theorem init_returns_iff (W : World) (env : gmap string string) :
  (∃ st1, __init__ W (initial_state env) = (inr tt, st1)) ↔
  model_loader_new W = inr tt ∧
  missing_in (env ∪ dotenv_values W) = [] ∧
  os_path_exists W (csv_location W) = true ∧
  (∃ df, pd_read_csv W (csv_location W) = inr df ∧
         expected_columns ⊆ list_to_set (df_columns df)) ∧
  (∃ cfg, yaml_safe_load W default_config_path = inr cfg).
Proof.
  pose proof (init_cases W env) as H. split.
  - intros (st1 & Hrun). rewrite Hrun in H. simpl in H.
    inversion H; subst. eauto 10.
  - intros (Hml & Hm & Hex & (df & Hcsv & Hcols) & (cfg & Hcfg)).
    destruct (__init__ W (initial_state env)) as [r st1]. simpl in H.
    exists st1. init_inversion H.
Qed.

Lemma init_returns_iff_witness :
  ∃ st1, __init__ Sample.good_world (initial_state Sample.env) = (inr tt, st1).
Proof.
  apply (proj2 (init_returns_iff Sample.good_world Sample.env)).
  split; [reflexivity|]. split; [vm_compute; reflexivity|].
  split; [reflexivity|]. split.
  - exists Sample.frame. split; [reflexivity|].
    apply (bool_decide_unpack
             (expected_columns ⊆ list_to_set (df_columns Sample.frame))).
    vm_compute. exact I.
  - by exists Sample.settings.
Defined.

(** X9.  An object whose constructor has returned has every attribute
    assigned: the model loader, the four credentials, the path, the frame
    and the configuration. *)
Theorem init_leaves_object_complete (W : World) (env : gmap string string)
    (st1 : State) :
  __init__ W (initial_state env) = (inr tt, st1) →
  fully_initialised (self st1) = true.
Proof.
  intros Hrun. pose proof (init_cases W env) as H.
  rewrite Hrun in H. simpl in H. inversion H; subst.
  match goal with Hs : self st1 = _ |- _ => rewrite Hs end.
  match goal with Hm : missing_in _ = [] |- _ =>
    pose proof (proj1 (missing_in_nil _) Hm) as Hall end.
  unfold fully_initialised. simpl.
  rewrite !andb_true_iff, !bool_decide_eq_true.
  repeat split; try (by eexists); apply Hall, required_vars_elem; tauto.
Qed.

Lemma init_leaves_object_complete_witness :
  fully_initialised
    (self (__init__ Sample.good_world (initial_state Sample.env)).2) = true.
Proof.
  apply (init_leaves_object_complete Sample.good_world Sample.env).
  vm_compute. reflexivity.
Defined.

(** X10.  The test of the columns at load time rules out a [KeyError] in
    the transformation, and nothing more.  On an object whose constructor has
    returned, with a frame whose rows carry the labels of its columns,
    [transform_data] returns one document per row when every review is a
    string; otherwise it raises the [ValidationError] of the first review
    that is not one, an empty cell for instance, and prints nothing. *)
Theorem loaded_frame_transform_outcome (W : World) (env : gmap string string)
    (st1 : State) (df : DataFrame) :
  __init__ W (initial_state env) = (inr tt, st1) →
  pd_read_csv W (csv_location W) = inr df →
  frame_wf df = true →
  match first_refused (df_rows df) with
  | None =>
      ∃ docs,
        transform_data st1
        = (inr docs,
           with_events st1 [transformed_line (length (df_rows df))]) ∧
        Forall2 (λ row d, row_document row = inr d) (df_rows df) docs
  | Some c => transform_data st1 = (inl (ValidationError c), st1)
  end.
Proof.
  intros Hrun Hcsv Hwf.
  destruct (init_returns W env st1 Hrun)
    as (df' & cfg & Hcsv' & Hcols & _ & Hdata & _).
  assert (df' = df) as -> by congruence.
  pose proof (loaded_rows_valid df Hwf Hcols) as Hvalid.
  rewrite transform_data_unfold, Hdata.
  destruct (first_refused (df_rows df)) as [c|] eqn:Hc.
  - rewrite transform_rows_two_loops.
    destruct (proj1 (first_loop_valid _) Hvalid) as [product_list ->].
    pose proof (second_loop_refused _ Hvalid) as H. rewrite Hc in H.
    by rewrite H.
  - destruct (transform_rows_valid (df_rows df)) as (docs & -> & Hall).
    { by apply first_refused_none. }
    exists docs. split; [|done].
    by rewrite (Forall2_length _ _ _ Hall).
Qed.

Lemma loaded_frame_transform_outcome_witness :
  transform_data
    (__init__ Sample.empty_cell_world (initial_state Sample.env)).2
  = (inl (ValidationError CNaN),
     (__init__ Sample.empty_cell_world (initial_state Sample.env)).2).
Proof.
  apply (loaded_frame_transform_outcome Sample.empty_cell_world Sample.env
           (__init__ Sample.empty_cell_world (initial_state Sample.env)).2
           Sample.frame_with_empty_cell).
  - vm_compute. reflexivity.
  - reflexivity.
  - vm_compute. reflexivity.
Defined.

(** ** The write to the store *)

Lemma with_events_nil (st : State) : with_events st [] = st.
Proof. destruct st. unfold with_events. simpl. by rewrite app_nil_r. Qed.

Lemma with_events_app (st : State) (evs1 evs2 : list event) :
  with_events (with_events st evs1) evs2 = with_events st (evs1 ++ evs2)%list.
Proof. unfold with_events. simpl. by rewrite app_assoc. Qed.

(** Either the object is ready for the write, or [store_in_vector_db] raises
    before the call of [add_documents]. *)
Lemma store_in_vector_db_cases (W : World) (docs : list Document) (st : State) :
  (∃ vstore, store_ready W st vstore) ∨
  (∃ e evs,
     store_in_vector_db W docs st = (inl e, with_events st evs) ∧
     Forall (λ ev, add_event ev = false) evs ∧
     Forall (λ ev, search_event ev = false) evs ∧
     Forall (λ ev, ∀ msg, ev ≠ EvPrint msg) evs).
Proof.
  unfold store_ready, store_in_vector_db, getattr, lift, emit, print,
    mbind, M_bind, mret, M_ret.
  destruct (config (self st)) as [cfg|] eqn:Hcfg.
  2:{ right. exists (AttributeError "config"), [].
      rewrite with_events_nil. by repeat split. }
  destruct (yaml_getitem cfg "astra_db") as [e|astra_db] eqn:Ha.
  { right. exists e, []. rewrite with_events_nil. by repeat split. }
  destruct (yaml_getitem astra_db "collection_name") as [e|c] eqn:Hc.
  { right. exists e, []. rewrite with_events_nil. by repeat split. }
  destruct (model_loader (self st)) as [ml|] eqn:Hml.
  2:{ right. exists (AttributeError "model_loader"), [].
      rewrite with_events_nil. by repeat split. }
  simpl.
  destruct (model_load_embeddings W) as [e|[]] eqn:Hemb.
  { right. exists e, [EvLoadEmbeddings]. split; [reflexivity|].
    repeat split; by repeat constructor. }
  simpl.
  destruct (db_api_endpoint (self st)) as [ep|] eqn:Hep.
  2:{ right. exists (AttributeError "db_api_endpoint"), [EvLoadEmbeddings].
      split; [reflexivity|]. repeat split; by repeat constructor. }
  simpl.
  destruct (db_application_token (self st)) as [tok|] eqn:Htok.
  2:{ right. exists (AttributeError "db_application_token"), [EvLoadEmbeddings].
      split; [reflexivity|]. repeat split; by repeat constructor. }
  simpl.
  destruct (db_keyspace (self st)) as [ns|] eqn:Hns.
  2:{ right. exists (AttributeError "db_keyspace"), [EvLoadEmbeddings].
      split; [reflexivity|]. repeat split; by repeat constructor. }
  simpl.
  set (vstore := {| vs_collection := c; vs_endpoint := ep; vs_token := tok;
                    vs_namespace := ns |}).
  destruct (astra_new W vstore) as [e|[]] eqn:Hnew.
  { right. exists e, [EvLoadEmbeddings; EvStoreConnect vstore].
    split; [unfold with_events; simpl; by rewrite <- app_assoc|].
    repeat split; by repeat constructor. }
  left. exists vstore, cfg, astra_db, ml. by repeat split.
Qed.

(** The store is opened in one way only. *)
Lemma store_ready_unique (W : World) (st : State) (v1 v2 : VStore) :
  store_ready W st v1 → store_ready W st v2 → v1 = v2.
Proof.
  intros (cfg1 & a1 & ml1 & Hcfg1 & Ha1 & Hc1 & _ & _ & Hep1 & Htok1 & Hns1 & _)
         (cfg2 & a2 & ml2 & Hcfg2 & Ha2 & Hc2 & _ & _ & Hep2 & Htok2 & Hns2 & _).
  assert (cfg2 = cfg1) as -> by congruence.
  assert (a2 = a1) as -> by congruence.
  destruct v1, v2. simpl in *. f_equal; congruence.
Qed.

(** X11.  [store_in_vector_db] returns normally exactly when the object is
    ready for the write (the configuration names a collection, the
    embeddings load, the three credentials are set, the store opens) and
    [add_documents] returns; it returns the handle and the identifiers of the
    store, after one call of each collaborator and one line on the console
    with the number of identifiers. *)
Theorem store_in_vector_db_returns_iff (W : World) (docs : list Document)
    (st st' : State) (vstore : VStore) (ids : list string) :
  store_in_vector_db W docs st = (inr (vstore, ids), st') ↔
  store_ready W st vstore ∧
  astra_add_documents W docs = inr ids ∧
  st' = with_events st [EvLoadEmbeddings; EvStoreConnect vstore;
                        EvAddDocuments docs; inserted_line (length ids)].
Proof.
  split.
  - intros Hrun.
    destruct (store_in_vector_db_cases W docs st)
      as [[v Hready]|(e & evs & Hfail & _)]; [|congruence].
    rewrite (store_in_vector_db_ready W docs st v Hready) in Hrun.
    destruct (astra_add_documents W docs) as [e|ids']; [done|].
    injection Hrun as -> -> <-. done.
  - intros (Hready & Hadd & ->).
    by rewrite (store_in_vector_db_ready W docs st vstore Hready), Hadd.
Qed.

Lemma store_in_vector_db_returns_iff_witness :
  store_in_vector_db Sample.good_world Sample.documents
    (Sample.state_of Sample.object)
  = (inr (Sample.vstore, ["id-0"; "id-1"; "id-2"]),
     with_events (Sample.state_of Sample.object)
       [EvLoadEmbeddings; EvStoreConnect Sample.vstore;
        EvAddDocuments Sample.documents; inserted_line 3]).
Proof.
  apply (proj2 (store_in_vector_db_returns_iff Sample.good_world
                  Sample.documents (Sample.state_of Sample.object) _
                  Sample.vstore ["id-0"; "id-1"; "id-2"])).
  split; [exact (sample_store_ready Sample.good_world eq_refl eq_refl)|].
  split; reflexivity.
Defined.

(** X12.  Whatever [store_in_vector_db] adds to the events, a call of
    [add_documents] among them carries the documents it was given and comes
    after the store was opened on an object that is ready; and a line on the
    console among them means that the call has returned, and gives the
    number of identifiers the store answered with. *)
Theorem store_write_needs_ready_object (W : World) (docs : list Document)
    (st : State) (evs : list event) :
  out (store_in_vector_db W docs st).2 = (out st ++ evs)%list →
  (∀ d, EvAddDocuments d ∈ evs →
        d = docs ∧
        ∃ vstore, store_ready W st vstore ∧
                  [EvLoadEmbeddings; EvStoreConnect vstore; EvAddDocuments docs]
                    `prefix_of` evs) ∧
  (∀ msg, EvPrint msg ∈ evs →
          ∃ vstore ids,
            (store_in_vector_db W docs st).1 = inr (vstore, ids) ∧
            astra_add_documents W docs = inr ids ∧
            EvPrint msg = inserted_line (length ids)).
Proof.
  intros Hout.
  destruct (store_in_vector_db_cases W docs st)
    as [[v Hready]|(e & evs' & Hfail & Hadd & _ & Hprint)].
  - rewrite (store_in_vector_db_ready W docs st v Hready) in Hout |- *.
    destruct (astra_add_documents W docs) as [e|ids];
      simpl in Hout; apply app_inv_head in Hout; subst evs; split.
    + intros d Hd. rewrite !elem_of_cons, elem_of_nil in Hd.
      destruct Hd as [Hd|[Hd|[Hd|[]]]]; try discriminate Hd.
      injection Hd as ->. split; [done|]. exists v. split; [done|].
      by exists [].
    + intros msg Hmsg. rewrite !elem_of_cons, elem_of_nil in Hmsg.
      destruct Hmsg as [Hd|[Hd|[Hd|[]]]]; discriminate Hd.
    + intros d Hd. rewrite !elem_of_cons, elem_of_nil in Hd.
      destruct Hd as [Hd|[Hd|[Hd|[Hd|[]]]]]; try discriminate Hd.
      injection Hd as ->. split; [done|]. exists v. split; [done|].
      by exists [inserted_line (length ids)].
    + intros msg Hmsg. rewrite !elem_of_cons, elem_of_nil in Hmsg.
      destruct Hmsg as [Hd|[Hd|[Hd|[Hd|[]]]]]; try discriminate Hd.
      exists v, ids. by repeat split.
  - rewrite Hfail in Hout. simpl in Hout. apply app_inv_head in Hout.
    subst evs'. split.
    + intros d Hd. rewrite Forall_forall in Hadd. by apply Hadd in Hd.
    + intros msg Hmsg. rewrite Forall_forall in Hprint.
      by destruct (Hprint _ Hmsg msg).
Qed.

Lemma store_write_needs_ready_object_witness :
  ∃ vstore,
    store_ready Sample.short_world (Sample.state_of Sample.object) vstore ∧
    [EvLoadEmbeddings; EvStoreConnect vstore; EvAddDocuments Sample.documents]
      `prefix_of`
    [EvLoadEmbeddings; EvStoreConnect Sample.vstore;
     EvAddDocuments Sample.documents; inserted_line 1].
Proof.
  refine (proj2 (proj1 (store_write_needs_ready_object Sample.short_world
                          Sample.documents (Sample.state_of Sample.object)
                          [EvLoadEmbeddings; EvStoreConnect Sample.vstore;
                           EvAddDocuments Sample.documents; inserted_line 1]
                          eq_refl)
                   Sample.documents _)).
  do 2 apply list_elem_of_further. apply list_elem_of_here.
Defined.

(** ** The run as a whole *)

(** [run_pipeline] ends in one of the four ways of [run_case]. *)
Lemma run_pipeline_cases (W : World) (st : State) :
  ∃ evs, (run_pipeline W st).2 = with_events st evs ∧
         run_case W st (run_pipeline W st).1 evs.
Proof.
  destruct (product_data (self st)) as [df|] eqn:Hdf.
  2:{ exists []. unfold run_pipeline, mbind, M_bind.
      rewrite transform_data_unfold, Hdf, with_events_nil.
      split; [done|]. by apply RunNoWrite. }
  destruct (transform_rows (df_rows df)) as [e|docs] eqn:Hrows.
  { exists []. unfold run_pipeline, mbind, M_bind.
    rewrite transform_data_unfold, Hdf, Hrows, with_events_nil.
    split; [done|]. by apply RunNoWrite. }
  destruct (store_in_vector_db_cases W docs
              (with_events st [transformed_line (length docs)]))
    as [[vstore Hready]|(e & evs & Hfail & Hadd & Hsearch & _)].
  - assert (store_ready W st vstore) as Hready' by exact Hready.
    rewrite (run_pipeline_ready W st df vstore docs Hdf Hrows Hready').
    destruct (astra_add_documents W docs) as [e|ids] eqn:Hwrite.
    { eexists. split; [reflexivity|]. by eapply RunWriteFails. }
    destruct (astra_similarity_search W docs sample_query)
      as [e|results] eqn:Hfind.
    { eexists. split; [reflexivity|].
      by eapply (RunSearchFails W st df vstore docs ids e). }
    eexists. split; [reflexivity|].
    by eapply (RunDone W st df vstore docs ids results).
  - exists (transformed_line (length docs) :: evs).
    unfold run_pipeline, mbind, M_bind.
    rewrite transform_data_unfold, Hdf, Hrows, Hfail, with_events_app.
    split; [done|]. apply RunNoWrite; by constructor.
Qed.

Lemma filter_none {A} (P : A → bool) (l : list A) :
  Forall (λ x, P x = false) l → filter (λ x, P x) l = [].
Proof.
  induction 1 as [|x l Hx _ IH]; [done|].
  rewrite filter_cons_False; [exact IH|]. rewrite Hx. intros [].
Qed.

Lemma filter_result_lines (P : event → bool) (results : list Document) :
  (∀ msg, P (EvPrint msg) = false) →
  filter (λ ev, P ev) (result_line <$> results) = [].
Proof.
  intros HP. induction results as [|res results IH]; [done|].
  rewrite fmap_cons, filter_cons_False; [exact IH|].
  unfold result_line. rewrite HP. intros [].
Qed.

(** X13.  Whatever happens, [run_pipeline] calls [add_documents] at most
    once and [similarity_search] at most once.  The documents it writes are
    those made of the rows of [product_data]; the search is the fixed query
    and comes only after a write that returned, whose count was printed. *)
Theorem run_pipeline_store_calls (W : World) (st : State) (evs : list event) :
  out (run_pipeline W st).2 = (out st ++ evs)%list →
  (length (filter (λ ev, add_event ev) evs) ≤ 1)%nat ∧
  (length (filter (λ ev, search_event ev) evs) ≤ 1)%nat ∧
  (∀ docs, EvAddDocuments docs ∈ evs →
           ∃ df, product_data (self st) = Some df ∧
                 transform_rows (df_rows df) = inr docs) ∧
  (∀ query, EvSimilaritySearch query ∈ evs →
            query = sample_query ∧
            ∃ docs ids, EvAddDocuments docs ∈ evs ∧
                        astra_add_documents W docs = inr ids ∧
                        inserted_line (length ids) ∈ evs).
Proof.
  intros Hout.
  destruct (run_pipeline_cases W st) as (evs' & Hst & Hcase).
  rewrite Hst in Hout. simpl in Hout. apply app_inv_head in Hout.
  subst evs'. destruct Hcase
    as [e evs Hadd Hsearch
       |df vstore docs e Hdf Hrows Hready Hwrite
       |df vstore docs ids e Hdf Hrows Hready Hwrite Hfind
       |df vstore docs ids results Hdf Hrows Hready Hwrite Hfind].
  - assert (filter (λ ev, add_event ev) evs = []) as ->.
    { by apply filter_none. }
    assert (filter (λ ev, search_event ev) evs = []) as ->.
    { by apply filter_none. }
    rewrite Forall_forall in Hadd. rewrite Forall_forall in Hsearch.
    repeat split; simpl; try lia.
    + intros docs Hd. by apply Hadd in Hd.
    + by apply Hsearch in H.
    + by apply Hsearch in H.
  - unfold write_events. repeat split; try (simpl; lia).
    + intros d Hd. rewrite !elem_of_cons, elem_of_nil in Hd.
      destruct Hd as [Hd|[Hd|[Hd|[Hd|[]]]]]; try discriminate Hd.
      injection Hd as ->. eauto.
    + rewrite !elem_of_cons, elem_of_nil in H.
      destruct H as [Hd|[Hd|[Hd|[Hd|[]]]]]; discriminate Hd.
    + rewrite !elem_of_cons, elem_of_nil in H.
      destruct H as [Hd|[Hd|[Hd|[Hd|[]]]]]; discriminate Hd.
  - unfold write_events. repeat split; try (simpl; lia).
    + intros d Hd. simpl in Hd. rewrite !elem_of_cons, elem_of_nil in Hd.
      destruct Hd as [Hd|[Hd|[Hd|[Hd|[Hd|[Hd|[]]]]]]]; try discriminate Hd.
      injection Hd as ->. eauto.
    + simpl in H. rewrite !elem_of_cons, elem_of_nil in H.
      destruct H as [Hd|[Hd|[Hd|[Hd|[Hd|[Hd|[]]]]]]]; try discriminate Hd.
      by injection Hd as ->.
    + exists docs, ids. simpl. rewrite !elem_of_cons. tauto.
  - unfold run_events.
    rewrite !filter_app, !filter_result_lines, !app_nil_r by done.
    assert (∀ ev, ev ∈ result_line <$> results → ∃ msg, ev = EvPrint msg)
      as Hlines.
    { intros ev Hev. apply list_elem_of_fmap in Hev as (res & -> & _).
      by eexists. }
    repeat split; try (simpl; lia).
    + intros d Hd. apply elem_of_app in Hd as [Hd|Hd].
      * rewrite !elem_of_cons, elem_of_nil in Hd.
        destruct Hd as [Hd|[Hd|[Hd|[Hd|[Hd|[Hd|[Hd|[]]]]]]]];
          try discriminate Hd.
        injection Hd as ->. eauto.
      * by destruct (Hlines _ Hd).
    + apply elem_of_app in H as [Hd|Hd].
      * rewrite !elem_of_cons, elem_of_nil in Hd.
        destruct Hd as [Hd|[Hd|[Hd|[Hd|[Hd|[Hd|[Hd|[]]]]]]]];
          try discriminate Hd.
        by injection Hd as ->.
      * by destruct (Hlines _ Hd).
    + exists docs, ids. rewrite !elem_of_app, !elem_of_cons. tauto.
Qed.

Lemma run_pipeline_store_calls_witness :
  ∃ df, product_data Sample.object = Some df ∧
        transform_rows (df_rows df) = inr Sample.documents.
Proof.
  refine (proj1 (proj2 (proj2
            (run_pipeline_store_calls Sample.search_fails_world
               (Sample.state_of Sample.object)
               [transformed_line 3; EvLoadEmbeddings;
                EvStoreConnect Sample.vstore; EvAddDocuments Sample.documents;
                inserted_line 3; EvSimilaritySearch sample_query]
               _)))
            Sample.documents _).
  - vm_compute. reflexivity.
  - do 3 apply list_elem_of_further. apply list_elem_of_here.
Defined.

(** X14.  A run of the entry point that returns normally has done the
    following, in this order and nothing else: the five steps of the
    constructor; one line with the number of documents, which are those of
    the rows of the frame read; the embeddings loaded and the store opened
    with the collection of the configuration and the credentials of the
    environment; one call of [add_documents] with all the documents; one
    line with the number of identifiers; one search with the fixed query;
    the header and one line per result, in the order of the results. *)
Theorem main_success_trace (W : World) (env : gmap string string)
    (st : State) :
  main W (initial_state env) = (inr tt, st) →
  ∃ df cfg astra_db vstore docs ids results,
    pd_read_csv W (csv_location W) = inr df ∧
    transform_rows (df_rows df) = inr docs ∧
    yaml_safe_load W default_config_path = inr cfg ∧
    yaml_getitem cfg "astra_db" = inr astra_db ∧
    yaml_getitem astra_db "collection_name" = inr (vs_collection vstore) ∧
    (env ∪ dotenv_values W) !! "ASTRA_DB_API_ENDPOINT"
      = Some (vs_endpoint vstore) ∧
    (env ∪ dotenv_values W) !! "ASTRA_DB_APPLICATION_TOKEN"
      = Some (vs_token vstore) ∧
    (env ∪ dotenv_values W) !! "ASTRA_DB_KEYSPACE"
      = Some (vs_namespace vstore) ∧
    astra_add_documents W docs = inr ids ∧
    astra_similarity_search W docs sample_query = inr results ∧
    out st = (init_events W ++ run_events vstore docs ids results)%list.
Proof.
  intros Hmain.
  destruct (__init__ W (initial_state env)) as [[e|[]] st1] eqn:Hinit.
  { by rewrite (main_init_raises W env e st1 Hinit) in Hmain. }
  rewrite (main_init_returns W env st1 Hinit) in Hmain.
  pose proof (init_cases W env) as Hcase. rewrite Hinit in Hcase.
  simpl in Hcase. inversion Hcase as [| | | | | |df cfg ? _ _ _ Hcsv _ Hcfg
                                       Hout _ Hself]; subst.
  destruct (run_pipeline_cases W st1) as (evs & Hst & Hrun).
  rewrite Hmain in Hst, Hrun. simpl in Hst, Hrun. subst st.
  inversion Hrun as [| | |df' vstore docs ids results Hdf Hrows Hready
                          Hwrite Hfind]; subst.
  rewrite Hself in Hdf. simpl in Hdf. injection Hdf as <-.
  destruct Hready as (cfg' & astra_db & ml & Hc & Ha & Hn & _ & _
                      & Hep & Htok & Hns & _).
  rewrite Hself in Hc, Hep, Htok, Hns. simpl in Hc, Hep, Htok, Hns.
  injection Hc as <-.
  exists df, cfg, astra_db, vstore, docs, ids, results.
  simpl. rewrite Hout. by repeat split.
Qed.

Lemma main_success_trace_witness :
  ∃ df cfg astra_db vstore docs ids results,
    pd_read_csv Sample.good_world (csv_location Sample.good_world) = inr df ∧
    transform_rows (df_rows df) = inr docs ∧
    yaml_safe_load Sample.good_world default_config_path = inr cfg ∧
    yaml_getitem cfg "astra_db" = inr astra_db ∧
    yaml_getitem astra_db "collection_name" = inr (vs_collection vstore) ∧
    (Sample.env ∪ dotenv_values Sample.good_world) !! "ASTRA_DB_API_ENDPOINT"
      = Some (vs_endpoint vstore) ∧
    (Sample.env ∪ dotenv_values Sample.good_world)
      !! "ASTRA_DB_APPLICATION_TOKEN" = Some (vs_token vstore) ∧
    (Sample.env ∪ dotenv_values Sample.good_world) !! "ASTRA_DB_KEYSPACE"
      = Some (vs_namespace vstore) ∧
    astra_add_documents Sample.good_world docs = inr ids ∧
    astra_similarity_search Sample.good_world docs sample_query
      = inr results ∧
    out (main Sample.good_world (initial_state Sample.env)).2
    = (init_events Sample.good_world
       ++ run_events vstore docs ids results)%list.
Proof.
  apply (main_success_trace Sample.good_world Sample.env).
  vm_compute. reflexivity.
Defined.

(** ** The configuration check of test.py *)

(** With the collection named in the configuration and the model loader in
    place, [store_in_vector_db] gets as far as the embedding model, and opens
    the store, if it does, on that collection. *)
Lemma store_in_vector_db_configured (W : World) (docs : list Document)
    (st : State) (cfg astra_db collection : yaml) (ml : unit) :
  config (self st) = Some cfg →
  yaml_getitem cfg "astra_db" = inr astra_db →
  yaml_getitem astra_db "collection_name" = inr collection →
  model_loader (self st) = Some ml →
  ∃ evs, (store_in_vector_db W docs st).2
         = with_events st (EvLoadEmbeddings :: evs) ∧
         ∀ vstore, EvStoreConnect vstore ∈ evs →
                   vs_collection vstore = collection.
Proof.
  intros Hcfg Ha Hc Hml.
  unfold store_in_vector_db, getattr, lift, emit, print, mbind, M_bind,
    mret, M_ret.
  rewrite Hcfg, Ha, Hc, Hml. simpl.
  destruct (model_load_embeddings W) as [e|[]].
  { exists []. split; [reflexivity|]. intros v Hv. by apply elem_of_nil in Hv. }
  simpl. destruct (db_api_endpoint (self st)) as [ep|].
  2:{ exists []. split; [reflexivity|]. intros v Hv. by apply elem_of_nil in Hv. }
  simpl. destruct (db_application_token (self st)) as [tok|].
  2:{ exists []. split; [reflexivity|]. intros v Hv. by apply elem_of_nil in Hv. }
  simpl. destruct (db_keyspace (self st)) as [ns|].
  2:{ exists []. split; [reflexivity|]. intros v Hv. by apply elem_of_nil in Hv. }
  simpl.
  set (vstore := {| vs_collection := collection; vs_endpoint := ep;
                    vs_token := tok; vs_namespace := ns |}).
  assert (∀ rest v, (∀ ev, ev ∈ rest → ∀ v', ev ≠ EvStoreConnect v') →
                    EvStoreConnect v ∈ EvStoreConnect vstore :: rest →
                    vs_collection v = collection) as Hone.
  { intros rest v Hrest Hv. apply elem_of_cons in Hv as [Hv|Hv].
    - by injection Hv as ->.
    - by destruct (Hrest _ Hv v). }
  destruct (astra_new W vstore) as [e|[]].
  { exists [EvStoreConnect vstore]. split.
    - unfold with_events. simpl. by rewrite <- app_assoc.
    - intros v. apply Hone. intros ev Hev. by apply elem_of_nil in Hev. }
  simpl. destruct (astra_add_documents W docs) as [e|ids].
  { exists [EvStoreConnect vstore; EvAddDocuments docs]. split.
    - unfold with_events. simpl. by rewrite <- !app_assoc.
    - intros v. apply Hone. intros ev Hev v'.
      rewrite !elem_of_cons, elem_of_nil in Hev.
      by destruct Hev as [->|[]]. }
  exists [EvStoreConnect vstore; EvAddDocuments docs;
          inserted_line (length ids)]. split.
  - unfold with_events. simpl. by rewrite <- !app_assoc.
  - intros v. apply Hone. intros ev Hev v'.
    rewrite !elem_of_cons, elem_of_nil in Hev.
    by destruct Hev as [->|[->|[]]].
Qed.

(** X15.  test.py checks what the pipeline needs of the configuration: when
    the script runs through, it has printed three values and nothing else,
    and on an object built from the same configuration file
    [store_in_vector_db] passes its lookups, reaches the embedding model, and
    opens the store, if it gets there, on the collection that the script
    printed first. *)
Theorem script_checks_pipeline_settings (W : World)
    (env : gmap string string) (st1 : State) (docs : list Document)
    (trace : list script_event) :
  test_script W = (inr tt, trace) →
  __init__ W (initial_state env) = (inr tt, st1) →
  ∃ collection model top_k evs,
    trace = [ScLoadConfig default_config_path; ScPrint collection;
             ScPrint model; ScPrint top_k] ∧
    (store_in_vector_db W docs st1).2
    = with_events st1 (EvLoadEmbeddings :: evs) ∧
    ∀ vstore, EvStoreConnect vstore ∈ evs → vs_collection vstore = collection.
Proof.
  intros Hscript Hinit.
  pose proof (init_cases W env) as Hcase. rewrite Hinit in Hcase.
  simpl in Hcase. inversion Hcase as [| | | | | |df cfg ? _ _ _ _ _ Hcfg
                                       _ _ Hself]; subst.
  unfold test_script in Hscript. rewrite Hcfg in Hscript.
  destruct (script_settings cfg) as [e|[[collection model] top_k]] eqn:Hset;
    [done|].
  injection Hscript as <-.
  unfold script_settings in Hset.
  destruct (yaml_getitem cfg "astra_db") as [e|astra_db] eqn:Ha; [done|].
  destruct (yaml_getitem astra_db "collection_name") as [e|c] eqn:Hc; [done|].
  destruct (yaml_getitem cfg "embedding_model") as [e|em]; [done|].
  destruct (yaml_getitem em "model_name") as [e|m]; [done|].
  destruct (yaml_getitem cfg "retriever") as [e|r]; [done|].
  destruct (yaml_getitem r "top_k") as [e|k]; [done|].
  injection Hset as -> -> ->.
  destruct (store_in_vector_db_configured W docs st1 cfg astra_db collection tt)
    as (evs & Hst & Hopen); try done; try (by rewrite Hself).
  by exists collection, model, top_k, evs.
Qed.

Lemma script_checks_pipeline_settings_witness :
  ∃ collection model top_k evs,
    (test_script Sample.good_world).2
    = [ScLoadConfig default_config_path; ScPrint collection;
       ScPrint model; ScPrint top_k] ∧
    (store_in_vector_db Sample.good_world Sample.documents
       (__init__ Sample.good_world (initial_state Sample.env)).2).2
    = with_events (__init__ Sample.good_world (initial_state Sample.env)).2
        (EvLoadEmbeddings :: evs) ∧
    ∀ vstore, EvStoreConnect vstore ∈ evs → vs_collection vstore = collection.
Proof.
  apply (script_checks_pipeline_settings Sample.good_world Sample.env).
  - vm_compute. reflexivity.
  - vm_compute. reflexivity.
Defined.

(** X16.  A configuration without [astra_db] or without its
    [collection_name] stops both programs at the same lookup with the same
    exception: test.py before it has printed anything, and
    [store_in_vector_db] before it has reached the embedding model or the
    store, whatever the object holds besides. *)
Theorem missing_collection_stops_script_and_store (W : World)
    (cfg : yaml) (e : exn) (docs : list Document) (st : State) :
  yaml_safe_load W default_config_path = inr cfg →
  config (self st) = Some cfg →
  match yaml_getitem cfg "astra_db" with
  | inl e' => e' = e
  | inr astra_db => yaml_getitem astra_db "collection_name" = inl e
  end →
  test_script W = (inl e, [ScLoadConfig default_config_path]) ∧
  store_in_vector_db W docs st = (inl e, st).
Proof.
  intros Hload Hcfg He. split.
  - unfold test_script, script_settings. rewrite Hload.
    destruct (yaml_getitem cfg "astra_db") as [e'|astra_db]; [by subst|].
    by rewrite He.
  - by apply (store_in_vector_db_bad_config W docs st cfg e).
Qed.

Lemma missing_collection_stops_script_and_store_witness :
  ∃ W st,
    test_script W
    = (inl (KeyError "collection_name"), [ScLoadConfig default_config_path]) ∧
    store_in_vector_db W Sample.documents st
    = (inl (KeyError "collection_name"), st).
Proof.
  exists {| model_loader_new := inr tt;
            dotenv_values := Sample.dotenv;
            os_getcwd := "/app"; os_path_exists := λ _, true;
            pd_read_csv := λ _, inr Sample.frame;
            yaml_safe_load := λ _, inr (YMap [("astra_db", YMap [])]);
            model_load_embeddings := inr tt;
            astra_new := λ _, inr tt;
            astra_add_documents := λ _, inr ["id-0"; "id-1"; "id-2"];
            astra_similarity_search := λ _ _, inr [] |},
         (Sample.state_of
            {| model_loader := Some tt; google_api_key := Some "key";
               db_api_endpoint := Some "https://db.example";
               db_application_token := Some "token";
               db_keyspace := Some "shop";
               csv_path := Some "/app/data/flipkart_product_review.csv";
               product_data := Some Sample.frame;
               config := Some (YMap [("astra_db", YMap [])]) |}).
  apply (missing_collection_stops_script_and_store _
           (YMap [("astra_db", YMap [])])); reflexivity.
Defined.

(** ** The frame that is loaded *)

Lemma expected_columns_labels (columns : list string) :
  expected_columns ⊆ list_to_set columns ↔
  ∀ label, label ∈ required_labels → label ∈ columns.
Proof.
  unfold expected_columns, required_labels. split.
  - intros Hsub label Hlabel. apply (elem_of_list_to_set (C := gset string)).
    apply Hsub. rewrite !elem_of_cons, elem_of_nil in Hlabel.
    rewrite !elem_of_union, !elem_of_singleton. tauto.
  - intros Hall label Hlabel. apply elem_of_list_to_set. apply Hall.
    rewrite !elem_of_union, !elem_of_singleton in Hlabel.
    rewrite !elem_of_cons, elem_of_nil. tauto.
Qed.

(** X17.  [_load_csv] returns a frame exactly when the path of the object
    is set, [read_csv] returns that frame for it, and each of the four
    labels occurs among its columns, wherever and however often, and
    whatever other columns there are; the frame is returned as it was read,
    and the call has done nothing but read the file. *)
Theorem load_csv_returns_iff (W : World) (st st' : State) (df : DataFrame) :
  _load_csv W st = (inr df, st') ↔
  ∃ path, csv_path (self st) = Some path ∧
          pd_read_csv W path = inr df ∧
          (∀ label, label ∈ required_labels → label ∈ df_columns df) ∧
          st' = with_events st [EvReadCsv path].
Proof.
  split.
  - intros Hrun. destruct (csv_path (self st)) as [path|] eqn:Hpath.
    2:{ unfold _load_csv, getattr, mbind, M_bind in Hrun.
        by rewrite Hpath in Hrun. }
    rewrite (load_csv_unfold W st path Hpath) in Hrun.
    destruct (pd_read_csv W path) as [e|df'] eqn:Hcsv; [done|].
    destruct (bool_decide (expected_columns ⊆ list_to_set (df_columns df')))
      eqn:Hcols; [|done].
    injection Hrun as -> <-. exists path.
    apply bool_decide_eq_true_1 in Hcols.
    pose proof (proj1 (expected_columns_labels _) Hcols) as Hall.
    by repeat split.
  - intros (path & Hpath & Hcsv & Hcols & ->).
    rewrite (load_csv_unfold W st path Hpath), Hcsv.
    pose proof (proj2 (expected_columns_labels _) Hcols) as Hsub.
    by rewrite bool_decide_eq_true_2.
Qed.

Lemma load_csv_returns_iff_witness :
  _load_csv Sample.good_world (Sample.state_of Sample.object)
  = (inr Sample.frame,
     with_events (Sample.state_of Sample.object)
       [EvReadCsv "/app/data/flipkart_product_review.csv"]).
Proof.
  apply (proj2 (load_csv_returns_iff Sample.good_world
                  (Sample.state_of Sample.object) _ Sample.frame)).
  exists "/app/data/flipkart_product_review.csv".
  split; [reflexivity|]. split; [reflexivity|]. split; [|reflexivity].
  intros label Hlabel. exact Hlabel.
Defined.
